(** * OpenGL-Example: the scene registry (SceneManager) and the draw-call
      builder (object)

    A shallow embedding of [Source/SceneManager.cpp], [Source/object.cpp] and
    [Source/object.h], and the properties of the texture table, the material
    table and the per-draw state that the specification states about them.

    Conventions of the embedding
    - a C++ [int] is a [Z]; every counter of the program stays within the
      16 texture slots, so no wrap-around is involved;
    - a C++ [float] is an IEEE-754 binary32 value ([spec_float] with 24 bits
      of precision); literals are rounded to nearest as the compiler does;
    - GLM, the shader manager, the mesh library, the image decoder and OpenGL
      are external: their calls are recorded, in issue order, in the trace of
      the [World]; the GLM matrix functions are the operations of the class
      [GLM];
    - a method is a computation in the monad [M]: it threads the state it can
      reach and has no result ([None]) exactly when the C++ execution would
      be undefined (a null pointer dereferenced, an array indexed outside its
      16 elements). *)

From Stdlib Require Import ZArith QArith String Lia Floats.SpecFloat.
From stdpp Require Import base list strings.
From Equations Require Import Equations.

Local Open Scope Z_scope.

(** ** Scalars *)

Definition float : Type := spec_float.

Definition prec32 : Z := 24.
Definition emax32 : Z := 128.
Definition prec64 : Z := 53.
Definition emax64 : Z := 1024.

(** An [int] converted to [float], as in [glm::vec4(0.0f, 0.0f, 0.0f, 1)]. *)
Definition float_of_int (n : Z) : float :=
  binary_normalize prec32 emax32 n 0 false.

(** A literal with the suffix [f], such as [0.298f]: the decimal, rounded to
    the nearest binary32 value. *)
Definition f32 (q : Q) : float :=
  SFdiv prec32 emax32 (float_of_int (Qnum q)) (float_of_int (Zpos (Qden q))).

(** A literal without suffix, such as [22.0], is a [double]. *)
Definition f64 (q : Q) : spec_float :=
  SFdiv prec64 emax64
        (binary_normalize prec64 emax64 (Qnum q) 0 false)
        (binary_normalize prec64 emax64 (Zpos (Qden q)) 0 false).

(** The conversion of the assignment [shininess = 22.0]. *)
Definition float_of_double (d : spec_float) : float :=
  match d with
  | S754_finite s m e => binary_normalize prec32 emax32 (cond_Zopp s (Zpos m)) e s
  | _ => d
  end.

(** [bool] converted to [int], as in [setIntValue(g_UseTextureName, false)]. *)
Definition int_of_bool (b : bool) : Z := if b then 1 else 0.

(** [GLuint] is an unsigned 32-bit integer: [ID = -1] stores [2^32 - 1]. *)
Definition to_GLuint (n : Z) : Z := n mod 2 ^ 32.

(** A [GLuint] converted to [int], as in [textureID = m_textureIDs[index].ID]:
    the value modulo [2^32] in the range of [int]. *)
Definition int_of_GLuint (n : Z) : Z := (n + 2 ^ 31) mod 2 ^ 32 - 2 ^ 31.

(** [a.compare(b)] of [std::string]: negative, zero or positive. *)
Definition compare (a b : string) : Z :=
  match String.compare a b with
  | Eq => 0
  | Lt => -1
  | Gt => 1
  end.

(** ** GLM *)

Record vec2 : Type := Vec2 { v2x : float; v2y : float }.
Record vec3 : Type := Vec3 { v3x : float; v3y : float; v3z : float }.
Record vec4 : Type := Vec4 { v4x : float; v4y : float; v4z : float; v4w : float }.

(** The matrix side of GLM ([glm/gtx/transform.hpp]) is not part of the
    repository: its type and functions are the members of this class. *)
Class GLM : Type := {
  mat4 : Type;
  glm_radians : float -> float;
  glm_scale : vec3 -> mat4;
  glm_rotate : float -> vec3 -> mat4;
  glm_translate : vec3 -> mat4;
  mat4_mul : mat4 -> mat4 -> mat4
}.

Declare Scope glm_scope.
Delimit Scope glm_scope with glm.
Infix "*" := mat4_mul (at level 40, left associativity) : glm_scope.

(** ** Names of the uniforms (the anonymous namespace of SceneManager.cpp) *)

Definition g_ModelName : string := "model".
Definition g_ColorValueName : string := "objectColor".
Definition g_TextureValueName : string := "objectTexture".
Definition g_UseTextureName : string := "bUseTexture".
Definition g_UseLightingName : string := "bUseLighting".

(** ** The external world *)

(** The draw methods of [ShapeMeshes] that the program calls. *)
Inductive MeshDraw : Type :=
| DrawConeMesh
| DrawCylinderMesh
| DrawPlaneMesh
| DrawBoxMesh
| DrawSphereMesh
| DrawHalfSphereMesh
| DrawTorusMesh
| DrawHalfTorusMesh.

Inductive MeshLoad : Type :=
| LoadTaperedCylinderMesh
| LoadCylinderMesh
| LoadTorusMesh
| LoadSphereMesh
| LoadConeMesh
| LoadPlaneMesh
| LoadBoxMesh.

Inductive GLenum : Type :=
| GL_TEXTURE_2D
| GL_TEXTURE_WRAP_S
| GL_TEXTURE_WRAP_T
| GL_TEXTURE_MIN_FILTER
| GL_TEXTURE_MAG_FILTER
| GL_REPEAT
| GL_LINEAR
| GL_RGB8
| GL_RGB
| GL_RGBA8
| GL_RGBA
| GL_UNSIGNED_BYTE.

(** What [stbi_load] hands back for a readable file; the pixels themselves
    are only passed on to OpenGL. *)
Record Image : Type := {
  width : Z;
  height : Z;
  colorChannels : Z
}.

Section WithGLM.
Context {glm : GLM}.

(** Modelled from the spec: the collaborators of its section 6 (the
    shader-uniform interface ShaderManager, the mesh primitives ShapeMeshes,
    the image decoder, OpenGL) are not among the sources. A value of this
    type is one call made to one of them, with the arguments that
    SceneManager.cpp or object.cpp passes. The texture name that
    [glGenTextures] writes through its pointer is recorded with the call.
    [glDeleteTextures] belongs to OpenGL although no path of the program
    issues it. *)
Inductive Event : Type :=
| setMat4Value (name : string) (m : mat4)
| setIntValue (name : string) (v : Z)
| setBoolValue (name : string) (v : bool)
| setFloatValue (name : string) (v : float)
| setVec2Value (name : string) (v : vec2)
| setVec3Value (name : string) (v : vec3)
| setVec4Value (name : string) (v : vec4)
| setSampler2DValue (name : string) (v : Z)
| stbi_set_flip_vertically_on_load (flag : bool)
| stbi_image_free
| glGenTextures (n : Z) (generated : Z)
| glDeleteTextures (n : Z) (texture : Z)
| glBindTexture (target : GLenum) (texture : Z)
| glTexParameteri (target pname param : GLenum)
| glTexImage2D (internalformat : GLenum) (w h : Z) (format : GLenum)
| glGenerateMipmap (target : GLenum)
| glActiveTexture (unit : Z)
| delete_ShapeMeshes
| cout_loaded (filename : string) (w h channels : Z)
| cout_not_implemented (channels : Z)
| cout_could_not_load (filename : string)
| LoadMesh (m : MeshLoad)
| Draw (m : MeshDraw).

(** ** The data of SceneManager *)

Inductive pointer : Type :=
| NULL
| Addr (a : positive).

Definition is_NULL (p : pointer) : bool :=
  match p with
  | NULL => true
  | Addr _ => false
  end.

(** Modelled from the spec: SceneManager.h, which declares the class and its
    two structures, is not among the sources. [TEXTURE_INFO] is the
    TextureSlot of section 3 with the members that SceneManager.cpp
    accesses; [ID] is passed to [glGenTextures] by address, hence a
    [GLuint]. *)
Record TEXTURE_INFO : Type := {
  tex_tag : string;
  ID : Z
}.

(** Modelled from the spec: the MaterialRecord of section 3, with the
    members that SceneManager.cpp accesses. *)
Record OBJECT_MATERIAL : Type := {
  ambientStrength : float;
  ambientColor : vec3;
  diffuseColor : vec3;
  specularColor : vec3;
  shininess : float;
  mat_tag : string
}.

(** Modelled from the spec: the data members of the class, as the methods
    of SceneManager.cpp use them. *)
Record SceneManager : Type := {
  m_pShaderManager : pointer;
  m_basicMeshes : pointer;
  m_textureIDs : list TEXTURE_INFO;      (* TEXTURE_INFO m_textureIDs[16] *)
  m_loadedTextures : Z;
  m_objectMaterials : list OBJECT_MATERIAL   (* std::vector<OBJECT_MATERIAL> *)
}.

(** The part of the machine outside the two classes: the calls issued so
    far, the next unused texture name of the GL context, the image decoder
    seen as a function of the file name, and what a default-constructed
    [OBJECT_MATERIAL] holds (glm leaves the members of its vectors
    uninitialised, and the header that declares the structure is absent). *)
Record World : Type := {
  trace : list Event;
  next_texture : Z;
  stbi_load : string -> option Image;
  default_OBJECT_MATERIAL : OBJECT_MATERIAL
}.

Record Machine : Type := {
  scene : SceneManager;
  world : World
}.

(** ** The monad of methods *)

Definition M (S A : Type) : Type := S -> option (A * S).

Definition ret {S A : Type} (a : A) : M S A := fun s => Some (a, s).

Definition bind {S A B : Type} (c : M S A) (k : A -> M S B) : M S B :=
  fun s =>
    match c s with
    | Some (a, s') => k a s'
    | None => None
    end.

(** Undefined behaviour: the execution has no meaning from here on. *)
Definition undefined {S A : Type} : M S A := fun _ => None.

Definition gets {S A : Type} (f : S -> A) : M S A := fun s => Some (f s, s).

Definition modify {S : Type} (f : S -> S) : M S unit := fun s => Some (tt, f s).

Definition when {S : Type} (b : bool) (c : M S unit) : M S unit :=
  if b then c else ret tt.

(** [for (int i = lo; i < hi; i++) body(i)], for a body that writes neither
    [i] nor the bound. *)
Fixpoint for_count {S : Type} (n : nat) (i : Z) (body : Z -> M S unit) : M S unit :=
  match n with
  | O => ret tt
  | S n' => bind (body i) (fun _ => for_count n' (i + 1) body)
  end.

Definition for_range {S : Type} (lo hi : Z) (body : Z -> M S unit) : M S unit :=
  for_count (Z.to_nat (hi - lo)) lo body.

End WithGLM.

Declare Scope method_scope.
Delimit Scope method_scope with method.
Notation "x <- c ;; k" := (bind c (fun x => k))
  (at level 100, c at next level, right associativity) : method_scope.
Notation "c ;; k" := (bind c (fun _ => k))
  (at level 100, right associativity) : method_scope.

Local Open Scope method_scope.

Definition inspect {A : Type} (a : A) : {b : A | a = b} := exist _ a eq_refl.

(** The number of iterations left to a search loop
    [while ((index < bound) && (bFound == false))] whose body either sets
    [bFound] or increments [index]. *)
Definition search_measure (bound index : Z) (bFound : bool) : nat :=
  if bFound then O else S (Z.to_nat (bound - index)).

Section SceneManager.
Context {glm : GLM}.

(** *** Access to the state *)

Definition set_trace (t : list Event) (w : World) : World :=
  {| trace := t; next_texture := next_texture w; stbi_load := stbi_load w;
     default_OBJECT_MATERIAL := default_OBJECT_MATERIAL w |}.

Definition set_next_texture (n : Z) (w : World) : World :=
  {| trace := trace w; next_texture := n; stbi_load := stbi_load w;
     default_OBJECT_MATERIAL := default_OBJECT_MATERIAL w |}.

Definition set_world (w : World) (m : Machine) : Machine :=
  {| scene := scene m; world := w |}.

Definition set_scene (s : SceneManager) (m : Machine) : Machine :=
  {| scene := s; world := world m |}.

Definition set_m_pShaderManager (p : pointer) (s : SceneManager) : SceneManager :=
  {| m_pShaderManager := p; m_basicMeshes := m_basicMeshes s;
     m_textureIDs := m_textureIDs s; m_loadedTextures := m_loadedTextures s;
     m_objectMaterials := m_objectMaterials s |}.

Definition set_m_basicMeshes (p : pointer) (s : SceneManager) : SceneManager :=
  {| m_pShaderManager := m_pShaderManager s; m_basicMeshes := p;
     m_textureIDs := m_textureIDs s; m_loadedTextures := m_loadedTextures s;
     m_objectMaterials := m_objectMaterials s |}.

Definition set_m_textureIDs (a : list TEXTURE_INFO) (s : SceneManager) : SceneManager :=
  {| m_pShaderManager := m_pShaderManager s; m_basicMeshes := m_basicMeshes s;
     m_textureIDs := a; m_loadedTextures := m_loadedTextures s;
     m_objectMaterials := m_objectMaterials s |}.

Definition set_m_loadedTextures (n : Z) (s : SceneManager) : SceneManager :=
  {| m_pShaderManager := m_pShaderManager s; m_basicMeshes := m_basicMeshes s;
     m_textureIDs := m_textureIDs s; m_loadedTextures := n;
     m_objectMaterials := m_objectMaterials s |}.

Definition set_m_objectMaterials (v : list OBJECT_MATERIAL) (s : SceneManager) : SceneManager :=
  {| m_pShaderManager := m_pShaderManager s; m_basicMeshes := m_basicMeshes s;
     m_textureIDs := m_textureIDs s; m_loadedTextures := m_loadedTextures s;
     m_objectMaterials := v |}.

Definition set_ID (n : Z) (t : TEXTURE_INFO) : TEXTURE_INFO :=
  {| tex_tag := tex_tag t; ID := n |}.

Definition set_tex_tag (s : string) (t : TEXTURE_INFO) : TEXTURE_INFO :=
  {| tex_tag := s; ID := ID t |}.

(** A member of [*this]. *)
Definition this {A : Type} (f : SceneManager -> A) : M Machine A :=
  gets (fun m => f (scene m)).

Definition assign (f : SceneManager -> SceneManager) : M Machine unit :=
  modify (fun m => set_scene (f (scene m)) m).

(** A call to a collaborator, appended to the trace. *)
Definition emit (e : Event) : M Machine unit :=
  modify (fun m => set_world (set_trace (trace (world m) ++ [e]) (world m)) m).

(** [m_pShaderManager->e]: the pointer is dereferenced. *)
Definition shader (e : Event) : M Machine unit :=
  p <- this m_pShaderManager ;;
  if is_NULL p then undefined else emit e.

(** [m_basicMeshes->e]. *)
Definition meshes (e : Event) : M Machine unit :=
  p <- this m_basicMeshes ;;
  if is_NULL p then undefined else emit e.

(** [glGenTextures(1, &name)]: the context hands out its next unused name. *)
Definition gen_texture : M Machine Z :=
  n <- gets (fun m => next_texture (world m)) ;;
  modify (fun m => set_world (set_next_texture (n + 1) (world m)) m) ;;
  emit (glGenTextures 1 n) ;;
  ret n.

(** [a[i]] on a built-in array: defined inside the array only. *)
Definition element (a : list TEXTURE_INFO) (i : Z) : option TEXTURE_INFO :=
  if 0 <=? i then a !! Z.to_nat i else None.

(** [m_textureIDs[i]] read. *)
Definition textureIDs_at (i : Z) : M Machine TEXTURE_INFO :=
  a <- this m_textureIDs ;;
  match element a i with
  | Some t => ret t
  | None => undefined
  end.

(** [m_textureIDs[i].member = ...]. *)
Definition textureIDs_update (i : Z) (f : TEXTURE_INFO -> TEXTURE_INFO) : M Machine unit :=
  t <- textureIDs_at i ;;
  assign (fun s => set_m_textureIDs (<[Z.to_nat i := f t]> (m_textureIDs s)) s).

(** *** SceneManager::SceneManager *)

(** The storage of a SceneManager before its constructor has run: the
    strings and the vector are default-constructed, the other members are
    about to be assigned. *)
Definition storage : SceneManager :=
  {| m_pShaderManager := NULL;
     m_basicMeshes := NULL;
     m_textureIDs := replicate 16 {| tex_tag := ""; ID := 0 |};
     m_loadedTextures := 0;
     m_objectMaterials := [] |}.

(** The address that [new ShapeMeshes()] returns; only its being non-null
    matters. *)
Definition new_ShapeMeshes : pointer := Addr 1.

Definition SceneManager_ctor (pShaderManager : pointer) : M Machine unit :=
  assign (set_m_pShaderManager pShaderManager) ;;
  assign (set_m_basicMeshes new_ShapeMeshes) ;;
  (* initialize the texture collection *)
  for_range 0 16 (fun i =>
    textureIDs_update i (set_tex_tag "/0") ;;
    textureIDs_update i (set_ID (to_GLuint (-1)))) ;;
  assign (set_m_loadedTextures 0).

Definition new_SceneManager (pShaderManager : pointer) (w : World) : option (unit * Machine) :=
  SceneManager_ctor pShaderManager {| scene := storage; world := w |}.

(** *** SceneManager::CreateGLTexture *)

Definition CreateGLTexture (filename tag : string) : M Machine bool :=
  (* indicate to always flip images vertically when loaded *)
  emit (stbi_set_flip_vertically_on_load true) ;;
  (* try to parse the image data from the specified image file *)
  image <- gets (fun m => stbi_load (world m) filename) ;;
  match image with
  | Some img =>
      let width := width img in
      let height := height img in
      let colorChannels := colorChannels img in
      emit (cout_loaded filename width height colorChannels) ;;
      textureID <- gen_texture ;;
      emit (glBindTexture GL_TEXTURE_2D textureID) ;;
      (* set the texture wrapping parameters *)
      emit (glTexParameteri GL_TEXTURE_2D GL_TEXTURE_WRAP_S GL_REPEAT) ;;
      emit (glTexParameteri GL_TEXTURE_2D GL_TEXTURE_WRAP_T GL_REPEAT) ;;
      (* set texture filtering parameters *)
      emit (glTexParameteri GL_TEXTURE_2D GL_TEXTURE_MIN_FILTER GL_LINEAR) ;;
      emit (glTexParameteri GL_TEXTURE_2D GL_TEXTURE_MAG_FILTER GL_LINEAR) ;;
      let after_upload : M Machine bool :=
        (* generate the texture mipmaps *)
        emit (glGenerateMipmap GL_TEXTURE_2D) ;;
        (* free the image data from local memory *)
        emit stbi_image_free ;;
        emit (glBindTexture GL_TEXTURE_2D 0) ;;
        (* register the loaded texture and associate it with the tag *)
        n <- this m_loadedTextures ;;
        textureIDs_update n (set_ID textureID) ;;
        n <- this m_loadedTextures ;;
        textureIDs_update n (set_tex_tag tag) ;;
        n <- this m_loadedTextures ;;
        assign (set_m_loadedTextures (n + 1)) ;;
        ret true in
      if colorChannels =? 3 then
        emit (glTexImage2D GL_RGB8 width height GL_RGB) ;;
        after_upload
      else if colorChannels =? 4 then
        emit (glTexImage2D GL_RGBA8 width height GL_RGBA) ;;
        after_upload
      else
        emit (cout_not_implemented colorChannels) ;;
        ret false
  | None =>
      emit (cout_could_not_load filename) ;;
      (* Error loading the image *)
      ret false
  end.

(** *** SceneManager::BindGLTextures *)

(** [glActiveTexture(GL_TEXTURE0 + i)] is recorded with the unit [i]. *)
Definition BindGLTextures : M Machine unit :=
  n <- this m_loadedTextures ;;
  for_range 0 n (fun i =>
    (* bind textures on corresponding texture units *)
    emit (glActiveTexture i) ;;
    t <- textureIDs_at i ;;
    emit (glBindTexture GL_TEXTURE_2D (ID t))).

(** *** SceneManager::DestroyGLTextures *)

Definition DestroyGLTextures : M Machine unit :=
  n <- this m_loadedTextures ;;
  for_range 0 n (fun i =>
    _ <- textureIDs_at i ;;
    name <- gen_texture ;;
    textureIDs_update i (set_ID name)).

(** *** SceneManager::~SceneManager *)

Definition SceneManager_dtor : M Machine unit :=
  (* clear the allocated memory *)
  assign (set_m_pShaderManager NULL) ;;
  emit delete_ShapeMeshes ;;
  assign (set_m_basicMeshes NULL) ;;
  (* destroy the created OpenGL textures *)
  DestroyGLTextures.

(** *** SceneManager::FindTextureID *)

Equations? FindTextureID_while (s : SceneManager) (tag : string)
    (textureID index : Z) (bFound : bool) : option Z
    by wf (search_measure (m_loadedTextures s) index bFound) lt :=
  FindTextureID_while s tag textureID index bFound
    with inspect ((index <? m_loadedTextures s) && (Bool.eqb bFound false)) := {
    | exist _ false _ => Some textureID
    | exist _ true _ with element (m_textureIDs s) index := {
      | None => None
      | Some t with inspect (compare (tex_tag t) tag =? 0) := {
        | exist _ true _ => FindTextureID_while s tag (int_of_GLuint (ID t)) index true
        | exist _ false _ => FindTextureID_while s tag textureID (index + 1) bFound } } }.
Proof.
  all: apply andb_prop in e as [Hlt Hb]; apply Z.ltb_lt in Hlt;
    destruct bFound; try discriminate; unfold search_measure; lia.
Qed.

Definition FindTextureID (tag : string) : M Machine Z :=
  s <- gets scene ;;
  match FindTextureID_while s tag (-1) 0 false with
  | Some textureID => ret textureID
  | None => undefined
  end.

(** *** SceneManager::FindTextureSlot *)

Equations? FindTextureSlot_while (s : SceneManager) (tag : string)
    (textureSlot index : Z) (bFound : bool) : option Z
    by wf (search_measure (m_loadedTextures s) index bFound) lt :=
  FindTextureSlot_while s tag textureSlot index bFound
    with inspect ((index <? m_loadedTextures s) && (Bool.eqb bFound false)) := {
    | exist _ false _ => Some textureSlot
    | exist _ true _ with element (m_textureIDs s) index := {
      | None => None
      | Some t with inspect (compare (tex_tag t) tag =? 0) := {
        | exist _ true _ => FindTextureSlot_while s tag index index true
        | exist _ false _ => FindTextureSlot_while s tag textureSlot (index + 1) bFound } } }.
Proof.
  all: apply andb_prop in e as [Hlt Hb]; apply Z.ltb_lt in Hlt;
    destruct bFound; try discriminate; unfold search_measure; lia.
Qed.

Definition FindTextureSlot (tag : string) : M Machine Z :=
  s <- gets scene ;;
  match FindTextureSlot_while s tag (-1) 0 false with
  | Some textureSlot => ret textureSlot
  | None => undefined
  end.

(** *** SceneManager::FindMaterial *)

Definition set_ambientStrength (v : float) (m : OBJECT_MATERIAL) : OBJECT_MATERIAL :=
  {| ambientStrength := v; ambientColor := ambientColor m;
     diffuseColor := diffuseColor m; specularColor := specularColor m;
     shininess := shininess m; mat_tag := mat_tag m |}.

Definition set_ambientColor (v : vec3) (m : OBJECT_MATERIAL) : OBJECT_MATERIAL :=
  {| ambientStrength := ambientStrength m; ambientColor := v;
     diffuseColor := diffuseColor m; specularColor := specularColor m;
     shininess := shininess m; mat_tag := mat_tag m |}.

Definition set_diffuseColor (v : vec3) (m : OBJECT_MATERIAL) : OBJECT_MATERIAL :=
  {| ambientStrength := ambientStrength m; ambientColor := ambientColor m;
     diffuseColor := v; specularColor := specularColor m;
     shininess := shininess m; mat_tag := mat_tag m |}.

Definition set_specularColor (v : vec3) (m : OBJECT_MATERIAL) : OBJECT_MATERIAL :=
  {| ambientStrength := ambientStrength m; ambientColor := ambientColor m;
     diffuseColor := diffuseColor m; specularColor := v;
     shininess := shininess m; mat_tag := mat_tag m |}.

Definition set_shininess (v : float) (m : OBJECT_MATERIAL) : OBJECT_MATERIAL :=
  {| ambientStrength := ambientStrength m; ambientColor := ambientColor m;
     diffuseColor := diffuseColor m; specularColor := specularColor m;
     shininess := v; mat_tag := mat_tag m |}.

Definition set_tag (v : string) (m : OBJECT_MATERIAL) : OBJECT_MATERIAL :=
  {| ambientStrength := ambientStrength m; ambientColor := ambientColor m;
     diffuseColor := diffuseColor m; specularColor := specularColor m;
     shininess := shininess m; mat_tag := v |}.

(** [m_objectMaterials.size()]. *)
Definition size (v : list OBJECT_MATERIAL) : Z := Z.of_nat (length v).

(** [m_objectMaterials[index]]: defined for the elements of the vector. *)
Definition at_index (v : list OBJECT_MATERIAL) (i : Z) : option OBJECT_MATERIAL :=
  if 0 <=? i then v !! Z.to_nat i else None.

(** The loop of FindMaterial, on the referenced [material] and the two
    locals; it hands back the material and the flag it leaves in [bFound]. *)
Equations? FindMaterial_while (s : SceneManager) (tag : string)
    (material : OBJECT_MATERIAL) (index : Z) (bFound : bool)
    : option (OBJECT_MATERIAL * bool)
    by wf (search_measure (size (m_objectMaterials s)) index bFound) lt :=
  FindMaterial_while s tag material index bFound
    with inspect ((index <? size (m_objectMaterials s)) && (Bool.eqb bFound false)) := {
    | exist _ false _ => Some (material, bFound)
    | exist _ true _ with at_index (m_objectMaterials s) index := {
      | None => None
      | Some found with inspect (compare (mat_tag found) tag =? 0) := {
        | exist _ true _ =>
            FindMaterial_while s tag
              (set_shininess (shininess found)
                (set_specularColor (specularColor found)
                  (set_diffuseColor (diffuseColor found)
                    (set_ambientStrength (ambientStrength found)
                      (set_ambientColor (ambientColor found) material)))))
              index true
        | exist _ false _ => FindMaterial_while s tag material (index + 1) bFound } } }.
Proof.
  all: apply andb_prop in e as [Hlt Hb]; apply Z.ltb_lt in Hlt;
    destruct bFound; try discriminate; unfold search_measure; lia.
Qed.

(** The parameter [OBJECT_MATERIAL& material] is passed in and handed back
    next to the result. *)
Definition FindMaterial (tag : string) (material : OBJECT_MATERIAL)
    : M Machine (bool * OBJECT_MATERIAL) :=
  s <- gets scene ;;
  if size (m_objectMaterials s) =? 0 then
    ret (false, material)
  else
    match FindMaterial_while s tag material 0 false with
    | Some (material', _) => ret (true, material')
    | None => undefined
    end.

(** *** SceneManager::SetTransformations *)

Definition SetTransformations (scaleXYZ : vec3)
    (XrotationDegrees YrotationDegrees ZrotationDegrees : float)
    (positionXYZ : vec3) : M Machine unit :=
  (* set the scale value in the transform buffer *)
  let scale := glm_scale scaleXYZ in
  (* set the rotation values in the transform buffer *)
  let rotationX := glm_rotate (glm_radians XrotationDegrees) (Vec3 (f32 1.0) (f32 0.0) (f32 0.0)) in
  let rotationY := glm_rotate (glm_radians YrotationDegrees) (Vec3 (f32 0.0) (f32 1.0) (f32 0.0)) in
  let rotationZ := glm_rotate (glm_radians ZrotationDegrees) (Vec3 (f32 0.0) (f32 0.0) (f32 1.0)) in
  (* set the translation value in the transform buffer *)
  let translation := glm_translate positionXYZ in
  let modelView := (translation * rotationX * rotationY * rotationZ * scale)%glm in
  p <- this m_pShaderManager ;;
  when (negb (is_NULL p))
    (shader (setMat4Value g_ModelName modelView)).

(** *** SceneManager::SetShaderColor *)

Definition SetShaderColor
    (redColorValue greenColorValue blueColorValue alphaValue : float) : M Machine unit :=
  let currentColor :=
    {| v4x := redColorValue; v4y := greenColorValue;
       v4z := blueColorValue; v4w := alphaValue |} in
  p <- this m_pShaderManager ;;
  when (negb (is_NULL p))
    (shader (setIntValue g_UseTextureName (int_of_bool false)) ;;
     shader (setVec4Value g_ColorValueName currentColor)).

(** *** SceneManager::SetShaderTexture *)

Definition SetShaderTexture (textureTag : string) : M Machine unit :=
  p <- this m_pShaderManager ;;
  when (negb (is_NULL p))
    (shader (setIntValue g_UseTextureName (int_of_bool true)) ;;
     textureID <- FindTextureSlot textureTag ;;
     shader (setSampler2DValue g_TextureValueName textureID)).

(** *** SceneManager::SetTextureUVScale *)

Definition SetTextureUVScale (u v : float) : M Machine unit :=
  p <- this m_pShaderManager ;;
  when (negb (is_NULL p))
    (shader (setVec2Value "UVscale" (Vec2 u v))).

(** *** SceneManager::DefineObjectMaterials *)

(** [m_objectMaterials.push_back(x)] stores a copy of [x]: an assignment to
    the variable [x] afterwards does not reach the stored element. *)
Definition push_back (x : OBJECT_MATERIAL) : M Machine unit :=
  assign (fun s => set_m_objectMaterials (m_objectMaterials s ++ [x]) s).

Definition DefineObjectMaterials : M Machine unit :=
  declared <- gets (fun m => default_OBJECT_MATERIAL (world m)) ;;

  let goldMaterial := declared in
  let goldMaterial := set_ambientColor (Vec3 (f32 0.2) (f32 0.2) (f32 0.2)) goldMaterial in
  let goldMaterial := set_ambientStrength (f32 0.3) goldMaterial in
  let goldMaterial := set_diffuseColor (Vec3 (f32 0.2) (f32 0.2) (f32 0.2)) goldMaterial in
  let goldMaterial := set_specularColor (Vec3 (f32 0.5) (f32 0.5) (f32 0.5)) goldMaterial in
  let goldMaterial := set_shininess (float_of_double (f64 22.0)) goldMaterial in
  let goldMaterial := set_tag "metal" goldMaterial in
  push_back goldMaterial ;;

  let woodMaterial := declared in
  let woodMaterial := set_ambientColor (Vec3 (f32 0.1) (f32 0.1) (f32 0.1)) woodMaterial in
  let woodMaterial := set_ambientStrength (f32 0.2) woodMaterial in
  let woodMaterial := set_diffuseColor (Vec3 (f32 0.23) (f32 0.23) (f32 0.23)) woodMaterial in
  let woodMaterial := set_specularColor (Vec3 (f32 0.1) (f32 0.1) (f32 0.1)) woodMaterial in
  let woodMaterial := set_shininess (float_of_double (f64 0.3)) woodMaterial in
  let woodMaterial := set_tag "wood" woodMaterial in
  push_back woodMaterial ;;

  let glassMaterial := declared in
  let glassMaterial := set_ambientColor (Vec3 (f32 0.4) (f32 0.4) (f32 0.4)) glassMaterial in
  let glassMaterial := set_ambientStrength (f32 0.3) glassMaterial in
  let glassMaterial := set_diffuseColor (Vec3 (f32 0.3) (f32 0.3) (f32 0.3)) glassMaterial in
  let glassMaterial := set_specularColor (Vec3 (f32 0.6) (f32 0.6) (f32 0.6)) glassMaterial in
  let glassMaterial := set_shininess (float_of_double (f64 85.0)) glassMaterial in
  let glassMaterial := set_tag "glass" glassMaterial in
  push_back glassMaterial ;;

  let softMaterial := declared in
  let softMaterial := set_ambientColor (Vec3 (f32 0.2) (f32 0.2) (f32 0.2)) softMaterial in
  let softMaterial := set_ambientStrength (f32 0.4) softMaterial in
  let softMaterial := set_diffuseColor (Vec3 (f32 0.1) (f32 0.1) (f32 0.1)) softMaterial in
  let softMaterial := set_specularColor (Vec3 (f32 0.1) (f32 0.1) (f32 0.1)) softMaterial in
  let softMaterial := set_shininess (float_of_double (f64 0.05)) softMaterial in
  let softMaterial := set_tag "soft" softMaterial in
  push_back softMaterial ;;

  let wallMaterial := declared in
  let wallMaterial := set_ambientColor (Vec3 (f32 0.2) (f32 0.2) (f32 0.2)) wallMaterial in
  let wallMaterial := set_ambientStrength (f32 0.3) wallMaterial in
  let wallMaterial := set_diffuseColor (Vec3 (f32 0.5) (f32 0.5) (f32 0.5)) wallMaterial in
  let wallMaterial := set_specularColor (Vec3 (f32 0.3) (f32 0.3) (f32 0.3)) wallMaterial in
  let wallMaterial := set_shininess (float_of_double (f64 0.5)) wallMaterial in
  let wallMaterial := set_tag "wall" wallMaterial in
  push_back wallMaterial ;;

  let matteMaterial := declared in
  let matteMaterial := set_ambientColor (Vec3 (f32 0.2) (f32 0.2) (f32 0.2)) matteMaterial in
  let matteMaterial := set_ambientStrength (f32 0.2) matteMaterial in
  let matteMaterial := set_diffuseColor (Vec3 (f32 0.1) (f32 0.1) (f32 0.1)) matteMaterial in
  let matteMaterial := set_specularColor (Vec3 (f32 0.0) (f32 0.0) (f32 0.0)) matteMaterial in
  let matteMaterial := set_shininess (float_of_double (f64 0.0)) matteMaterial in
  let matteMaterial := set_tag "matte" matteMaterial in
  push_back matteMaterial ;;

  let screenMaterial := declared in
  let glassMaterial := set_ambientColor (Vec3 (f32 0.298) (f32 0.694) (f32 0.929)) glassMaterial in
  let glassMaterial := set_ambientStrength (f32 0.2) glassMaterial in
  let glassMaterial := set_diffuseColor (Vec3 (f32 0.3) (f32 0.3) (f32 0.3)) glassMaterial in
  let glassMaterial := set_specularColor (Vec3 (f32 0.6) (f32 0.6) (f32 0.6)) glassMaterial in
  let glassMaterial := set_shininess (float_of_double (f64 10.0)) glassMaterial in
  let glassMaterial := set_tag "screen" glassMaterial in

  let hedgeMaterial := declared in
  let hedgeMaterial := set_ambientColor (Vec3 (f32 0.1) (f32 0.1) (f32 0.1)) hedgeMaterial in
  let hedgeMaterial := set_ambientStrength (f32 0.1) hedgeMaterial in
  let hedgeMaterial := set_diffuseColor (Vec3 (f32 0.3) (f32 0.2) (f32 0.3)) hedgeMaterial in
  let hedgeMaterial := set_specularColor (Vec3 (f32 0.4) (f32 0.2) (f32 0.2)) hedgeMaterial in
  let hedgeMaterial := set_shininess (float_of_double (f64 0.5)) hedgeMaterial in
  let hedgeMaterial := set_tag "hedge" hedgeMaterial in
  push_back hedgeMaterial.

(** *** SceneManager::SetupSceneLights *)

Definition SetupSceneLights : M Machine unit :=
  shader (setBoolValue g_UseLightingName true) ;;

  (* Room backlight *)
  shader (setVec3Value "lightSources[0].position" (Vec3 (f32 (-3.0)) (f32 10.0) (f32 6.0))) ;;
  shader (setVec3Value "lightSources[0].ambientColor" (Vec3 (f32 0.1) (f32 0.1) (f32 0.1))) ;;
  shader (setVec3Value "lightSources[0].diffuseColor" (Vec3 (f32 0.5) (f32 0.5) (f32 0.5))) ;;
  shader (setVec3Value "lightSources[0].specularColor" (Vec3 (f32 0.2) (f32 0.2) (f32 0.2))) ;;
  shader (setFloatValue "lightSources[0].focalStrength" (f32 32.0)) ;;
  shader (setFloatValue "lightSources[0].specularIntensity" (f32 0.2)) ;;

  (* Room light *)
  shader (setVec3Value "lightSources[1].position" (Vec3 (f32 0.0) (f32 71.0) (f32 0.0))) ;;
  shader (setVec3Value "lightSources[1].ambientColor" (Vec3 (f32 0.05) (f32 0.05) (f32 0.05))) ;;
  shader (setVec3Value "lightSources[1].diffuseColor" (Vec3 (f32 0.3) (f32 0.3) (f32 0.3))) ;;
  shader (setVec3Value "lightSources[1].specularColor" (Vec3 (f32 0.1) (f32 0.1) (f32 0.1))) ;;
  shader (setFloatValue "lightSources[1].focalStrength" (f32 20.0)) ;;
  shader (setFloatValue "lightSources[1].specularIntensity" (f32 0.1)) ;;

  (* Outside light *)
  shader (setVec3Value "lightSources[2].position" (Vec3 (f32 5.0) (f32 70.0) (f32 (-79.0)))) ;;
  shader (setVec3Value "lightSources[2].ambientColor" (Vec3 (f32 0.3) (f32 0.3) (f32 0.3))) ;;
  shader (setVec3Value "lightSources[2].diffuseColor" (Vec3 (f32 0.8) (f32 0.8) (f32 0.8))) ;;
  shader (setVec3Value "lightSources[2].specularColor" (Vec3 (f32 0.0) (f32 0.0) (f32 0.0))) ;;
  shader (setFloatValue "lightSources[2].focalStrength" (f32 12.0)) ;;
  shader (setFloatValue "lightSources[2].specularIntensity" (f32 0.2)) ;;

  (* Monitor light *)
  shader (setVec3Value "lightSources[3].position" (Vec3 (f32 (-1.0)) (f32 7.4) (f32 (-2.992)))) ;;
  shader (setVec3Value "lightSources[3].ambientColor" (Vec3 (f32 0.00) (f32 0.00) (f32 0.2))) ;;
  shader (setVec3Value "lightSources[3].diffuseColor" (Vec3 (f32 0.0) (f32 0.0) (f32 0.8))) ;;
  shader (setVec3Value "lightSources[3].specularColor" (Vec3 (f32 0.0) (f32 0.0) (f32 0.5))) ;;
  shader (setFloatValue "lightSources[3].focalStrength" (f32 50.0)) ;;
  shader (setFloatValue "lightSources[3].specularIntensity" (f32 0.05)).

(** *** SceneManager::LoadSceneTextures *)

Definition LoadSceneTextures : M Machine unit :=
  let bReturn := false in
  bReturn <- CreateGLTexture "Textures/dark_ceramic.jpg" "dark_ceramic" ;;
  bReturn <- CreateGLTexture "Textures/cement.jpeg" "cement" ;;
  bReturn <- CreateGLTexture "Textures/clouds.png" "clouds" ;;
  bReturn <- CreateGLTexture "Textures/grass.jpg" "grass" ;;
  bReturn <- CreateGLTexture "Textures/drywall.jpg" "drywall" ;;
  bReturn <- CreateGLTexture "Textures/dark_carpet.jpg" "dark_carpet" ;;
  bReturn <- CreateGLTexture "Textures/wood.jpg" "wood" ;;
  bReturn <- CreateGLTexture "Textures/green_vegetation.jpg" "green_vegetation" ;;
  bReturn <- CreateGLTexture "Textures/keys.jpg" "keys" ;;
  bReturn <- CreateGLTexture "Textures/water.jpg" "water" ;;
  bReturn <- CreateGLTexture "Textures/orange_brick.jpg" "orange_brick" ;;
  bReturn <- CreateGLTexture "Textures/paper.jpg" "paper" ;;
  bReturn <- CreateGLTexture "Textures/pencil.jpg" "pencil" ;;
  bReturn <- CreateGLTexture "Textures/homer.gif" "homer" ;;
  (* after the texture image data is loaded into memory, the loaded
     textures need to be bound to texture slots *)
  BindGLTextures.

(** *** SceneManager::SetShaderMaterial *)

Definition SetShaderMaterial (materialTag : string) : M Machine unit :=
  v <- this m_objectMaterials ;;
  when (size v >? 0)
    (material <- gets (fun m => default_OBJECT_MATERIAL (world m)) ;;
     let bReturn := false in
     r <- FindMaterial materialTag material ;;
     let '(bReturn, material) := r in
     when (Bool.eqb bReturn true)
       (shader (setVec3Value "material.ambientColor" (ambientColor material)) ;;
        shader (setFloatValue "material.ambientStrength" (ambientStrength material)) ;;
        shader (setVec3Value "material.diffuseColor" (diffuseColor material)) ;;
        shader (setVec3Value "material.specularColor" (specularColor material)) ;;
        shader (setFloatValue "material.shininess" (shininess material)))).

(** *** SceneManager::PrepareScene *)

Definition PrepareScene : M Machine unit :=
  (* define the materials for objects in the scene *)
  DefineObjectMaterials ;;
  (* add and define the light sources for the scene *)
  SetupSceneLights ;;
  (* Load the textures for the 3D scenes *)
  LoadSceneTextures ;;
  meshes (LoadMesh LoadTaperedCylinderMesh) ;;
  meshes (LoadMesh LoadCylinderMesh) ;;
  meshes (LoadMesh LoadTorusMesh) ;;
  meshes (LoadMesh LoadSphereMesh) ;;
  meshes (LoadMesh LoadConeMesh) ;;
  meshes (LoadMesh LoadPlaneMesh) ;;
  meshes (LoadMesh LoadBoxMesh).

End SceneManager.

(** ** The class object (object.h, object.cpp) *)

(** A [std::function<void()>]. Every function object that the program
    builds has the form [[this]() { m_basicMeshes->Draw...Mesh(); }]; the
    value records which draw method the body calls. *)
Inductive std_function : Type :=
| lambda (body : MeshDraw).

(** The members of an [object]. The member [scenePtr] is the address of the
    SceneManager of the [Machine]: the one construction in the program is
    [new object(this)], inside SceneManager::RenderScene. *)
Record object : Type := {
  uvScale : vec2;
  rotations : vec3;
  scale : vec3;
  position : vec3;
  RGBA : vec4;
  shape : std_function;
  texture : string;
  shaderMaterial : string
}.

Definition with_uvScale (v : vec2) (o : object) : object :=
  {| uvScale := v; rotations := rotations o; scale := scale o;
     position := position o; RGBA := RGBA o; shape := shape o;
     texture := texture o; shaderMaterial := shaderMaterial o |}.

Definition with_rotations (v : vec3) (o : object) : object :=
  {| uvScale := uvScale o; rotations := v; scale := scale o;
     position := position o; RGBA := RGBA o; shape := shape o;
     texture := texture o; shaderMaterial := shaderMaterial o |}.

Definition with_scale (v : vec3) (o : object) : object :=
  {| uvScale := uvScale o; rotations := rotations o; scale := v;
     position := position o; RGBA := RGBA o; shape := shape o;
     texture := texture o; shaderMaterial := shaderMaterial o |}.

Definition with_position (v : vec3) (o : object) : object :=
  {| uvScale := uvScale o; rotations := rotations o; scale := scale o;
     position := v; RGBA := RGBA o; shape := shape o;
     texture := texture o; shaderMaterial := shaderMaterial o |}.

Definition with_RGBA (v : vec4) (o : object) : object :=
  {| uvScale := uvScale o; rotations := rotations o; scale := scale o;
     position := position o; RGBA := v; shape := shape o;
     texture := texture o; shaderMaterial := shaderMaterial o |}.

Definition with_shape (v : std_function) (o : object) : object :=
  {| uvScale := uvScale o; rotations := rotations o; scale := scale o;
     position := position o; RGBA := RGBA o; shape := v;
     texture := texture o; shaderMaterial := shaderMaterial o |}.

Definition with_texture (v : string) (o : object) : object :=
  {| uvScale := uvScale o; rotations := rotations o; scale := scale o;
     position := position o; RGBA := RGBA o; shape := shape o;
     texture := v; shaderMaterial := shaderMaterial o |}.

Definition with_shaderMaterial (v : string) (o : object) : object :=
  {| uvScale := uvScale o; rotations := rotations o; scale := scale o;
     position := position o; RGBA := RGBA o; shape := shape o;
     texture := texture o; shaderMaterial := v |}.

(** The default member initializers of object.h. *)
Definition object_ctor : object :=
  {| uvScale := Vec2 (f32 0.0) (f32 0.0);
     rotations := Vec3 (f32 0.0) (f32 0.0) (f32 0.0);
     scale := Vec3 (f32 1.0) (f32 1.0) (f32 1.0);
     position := Vec3 (f32 0.0) (f32 0.0) (f32 0.0);
     RGBA := Vec4 (f32 0.0) (f32 0.0) (f32 0.0) (float_of_int 1);
     shape := lambda DrawBoxMesh;
     texture := "";
     shaderMaterial := "" |}.

Section Object.
Context {glm : GLM}.

(** The state a method of [object] can reach: its own members and, through
    [scenePtr], the scene manager and the world. *)
Definition Heap : Type := (object * Machine)%type.

Definition self {A : Type} (f : object -> A) : M Heap A :=
  gets (fun h => f (fst h)).

Definition self_assign (f : object -> object) : M Heap unit :=
  modify (fun h => (f (fst h), snd h)).

(** [scenePtr->method(...)]. *)
Definition scenePtr {A : Type} (method : M Machine A) : M Heap A :=
  fun h =>
    match method (snd h) with
    | Some (a, m) => Some (a, (fst h, m))
    | None => None
    end.

(** The call [f()] of a stored function object. *)
Definition call (f : std_function) : M Heap unit :=
  match f with
  | lambda body => scenePtr (meshes (Draw body))
  end.

(** *** object::render *)

Definition render : M Heap unit :=
  (* Set the transformations *)
  s <- self scale ;;
  r <- self rotations ;;
  p <- self position ;;
  scenePtr (SetTransformations s (v3x r) (v3y r) (v3z r) p) ;;
  (* Set the Shaders using RGBA *)
  c <- self RGBA ;;
  scenePtr (SetShaderColor (v4x c) (v4y c) (v4z c) (v4w c)) ;;
  (* Set the Shader Texture *)
  t <- self texture ;;
  when (negb (String.eqb t ""))
    (scenePtr (SetShaderTexture t) ;;
     (* Set the UV scale *)
     uv <- self uvScale ;;
     scenePtr (SetTextureUVScale (v2x uv) (v2y uv))) ;;
  (* Set the Shader Material *)
  sm <- self shaderMaterial ;;
  when (negb (String.eqb sm ""))
    (scenePtr (SetShaderMaterial sm)) ;;
  (* Draw the shape with lambda function for draw mesh *)
  f <- self shape ;;
  call f.

(** *** object::resetAll *)

Definition resetAll : M Heap unit :=
  self_assign (with_uvScale (Vec2 (f32 0.0) (f32 0.0))) ;;
  self_assign (with_rotations (Vec3 (f32 0.0) (f32 0.0) (f32 0.0))) ;;
  self_assign (with_scale (Vec3 (f32 1.0) (f32 1.0) (f32 1.0))) ;;
  self_assign (with_position (Vec3 (f32 0.0) (f32 0.0) (f32 0.0))) ;;
  self_assign (with_RGBA (Vec4 (f32 0.0) (f32 0.0) (f32 0.0) (float_of_int 1))) ;;
  self_assign (with_texture "") ;;
  self_assign (with_shaderMaterial "").

(** *** The setters *)

Definition set_uvScale (given_uvScale : vec2) : M Heap unit :=
  self_assign (with_uvScale given_uvScale).

Definition setRotations (givenRotations : vec3) : M Heap unit :=
  self_assign (with_rotations givenRotations).

Definition setScale (givenScale : vec3) : M Heap unit :=
  self_assign (with_scale givenScale).

Definition setPosition (givenPosition : vec3) : M Heap unit :=
  self_assign (with_position givenPosition).

Definition setRGBA (givenRGBA : vec4) : M Heap unit :=
  self_assign (with_RGBA givenRGBA).

Definition setShape (givenShape : std_function) : M Heap unit :=
  self_assign (with_shape givenShape).

Definition setTexture (givenTexture : string) : M Heap unit :=
  self_assign (with_texture givenTexture).

Definition setObjectShaderMaterial (givenMaterial : string) : M Heap unit :=
  self_assign (with_shaderMaterial givenMaterial).

(** *** Sequences of calls on one object *)

Inductive method_call : Type :=
| call_set_uvScale (given_uvScale : vec2)
| call_setRotations (givenRotations : vec3)
| call_setScale (givenScale : vec3)
| call_setPosition (givenPosition : vec3)
| call_setRGBA (givenRGBA : vec4)
| call_setShape (givenShape : std_function)
| call_setTexture (givenTexture : string)
| call_setObjectShaderMaterial (givenMaterial : string)
| call_render
| call_resetAll.

Definition invoke (c : method_call) : M Heap unit :=
  match c with
  | call_set_uvScale v => set_uvScale v
  | call_setRotations v => setRotations v
  | call_setScale v => setScale v
  | call_setPosition v => setPosition v
  | call_setRGBA v => setRGBA v
  | call_setShape f => setShape f
  | call_setTexture t => setTexture t
  | call_setObjectShaderMaterial t => setObjectShaderMaterial t
  | call_render => render
  | call_resetAll => resetAll
  end.

Fixpoint invoke_all (cs : list method_call) : M Heap unit :=
  match cs with
  | [] => ret tt
  | c :: cs' => invoke c ;; invoke_all cs'
  end.

(** *** The beginning of SceneManager::RenderScene *)

Definition cone : std_function := lambda DrawConeMesh.
Definition cylinder : std_function := lambda DrawCylinderMesh.
Definition plane : std_function := lambda DrawPlaneMesh.
Definition box : std_function := lambda DrawBoxMesh.
Definition sphere : std_function := lambda DrawSphereMesh.
Definition half_sphere : std_function := lambda DrawHalfSphereMesh.
Definition torus : std_function := lambda DrawTorusMesh.
Definition half_torus : std_function := lambda DrawHalfTorusMesh.
Definition taper_cylinder : std_function := lambda DrawTorusMesh.

(** The calls on [Object] of the section "Pencil cup", the first two
    objects that RenderScene draws. *)
Definition outer_cup : list method_call :=
  [ call_setRotations (Vec3 (f32 3.0) (f32 0.0) (f32 0.0));
    call_setScale (Vec3 (f32 2.0) (f32 4.0) (f32 2.0));
    call_setPosition (Vec3 (f32 13.0) (f32 1.0) (f32 (-3.0)));
    call_setShape cylinder;
    call_setRGBA (Vec4 (f32 1.0) (f32 1.0) (f32 1.0) (f32 1.0));
    call_setTexture "dark_ceramic";
    call_set_uvScale (Vec2 (f32 1.0) (f32 1.0));
    call_setObjectShaderMaterial "glass";
    call_render ].

Definition inner_cup : list method_call :=
  [ call_setScale (Vec3 (f32 1.7) (f32 4.01) (f32 1.7));
    call_setRGBA (Vec4 (f32 0.0) (f32 0.0) (f32 0.0) (f32 1.0));
    call_setTexture "";
    call_render ].

Definition pencil_cup : list method_call := outer_cup ++ inner_cup.

End Object.

(** ** SceneManager::RenderScene *)

Section RenderScene.
Context {glm : GLM}.

(** The calls that RenderScene makes on [Object], in program order, from
    the pencil cup to the outside ground. *)
Definition RenderScene_calls : list method_call :=
  [
    (* --- Pencil cup --- *)
    (* Outer Cup White *)
    call_setRotations (Vec3 (f32 3.0) (f32 0.0) (f32 0.0));
    call_setScale (Vec3 (f32 2.0) (f32 4.0) (f32 2.0));
    call_setPosition (Vec3 (f32 13.0) (f32 1.0) (f32 (-3.0)));
    call_setShape cylinder;
    call_setRGBA (Vec4 (f32 1.0) (f32 1.0) (f32 1.0) (f32 1.0));
    call_setTexture "dark_ceramic";
    call_set_uvScale (Vec2 (f32 1.0) (f32 1.0));
    call_setObjectShaderMaterial "glass";
    call_render;
    (* Inner Cup black *)
    call_setScale (Vec3 (f32 1.7) (f32 4.01) (f32 1.7));
    call_setRGBA (Vec4 (f32 0.0) (f32 0.0) (f32 0.0) (f32 1.0));
    call_setTexture "";
    call_render;
    (* --- Pencils --- *)
    (* Pencil Body 1 *)
    call_setRotations (Vec3 (f32 0.0) (f32 0.0) (f32 0.0));
    call_setScale (Vec3 (f32 0.20) (f32 8.0) (f32 0.20));
    call_setPosition (Vec3 (f32 13.6) (f32 1.0) (f32 (-3.0)));
    call_setRGBA (Vec4 (f32 0.949) (f32 0.839) (f32 0.471) (float_of_int 1));
    call_setObjectShaderMaterial "wood";
    call_render;
    (* Pencil Body 2 *)
    call_setRotations (Vec3 (f32 0.0) (f32 0.0) (f32 15.0));
    call_setScale (Vec3 (f32 0.20) (f32 7.0) (f32 0.20));
    call_setPosition (Vec3 (f32 12.7) (f32 1.0) (f32 (-2.80)));
    call_render;
    (* Pencil Body 3 *)
    call_setRotations (Vec3 (f32 0.0) (f32 0.0) (f32 10.0));
    call_setPosition (Vec3 (f32 12.9) (f32 1.0) (f32 (-3.40)));
    call_render;
    (* Pencil Body 4 *)
    call_setRotations (Vec3 (f32 10.0) (f32 0.0) (f32 0.0));
    call_setScale (Vec3 (f32 0.20) (f32 6.4) (f32 0.20));
    call_setPosition (Vec3 (f32 13.3) (f32 1.0) (f32 (-2.6)));
    call_render;
    (* Pencil Body 5 *)
    call_setRotations (Vec3 (f32 10.0) (f32 0.0) (f32 10.0));
    call_render;
    (* Pencil Body 6 *)
    call_setRotations (Vec3 (f32 10.0) (f32 0.0) (f32 5.0));
    call_render;
    (* Pencil Cone 1 *)
    call_setRotations (Vec3 (f32 0.0) (f32 0.0) (f32 0.0));
    call_setScale (Vec3 (f32 0.20) (f32 1.0) (f32 0.20));
    call_setPosition (Vec3 (f32 13.6) (f32 9.0) (f32 (-3.0)));
    call_setShape cone;
    call_setRGBA (Vec4 (f32 0.969) (f32 0.949) (f32 0.878) (float_of_int 1));
    call_setTexture "wood";
    call_set_uvScale (Vec2 (f32 0.5) (f32 0.5));
    call_render;
    (* Pencil Cone 2 *)
    call_setRotations (Vec3 (f32 0.0) (f32 0.0) (f32 10.0));
    call_setPosition (Vec3 (f32 11.68) (f32 7.9) (f32 (-3.4)));
    call_render;
    (* Pencil Cone 3 *)
    call_setRotations (Vec3 (f32 0.0) (f32 0.0) (f32 14.0));
    call_setPosition (Vec3 (f32 10.89) (f32 7.76) (f32 (-2.8)));
    call_render;
    (* Pencil Cone 4 *)
    call_setRotations (Vec3 (f32 10.0) (f32 0.0) (f32 0.0));
    call_setPosition (Vec3 (f32 13.3) (f32 7.32) (f32 (-1.49)));
    call_render;
    (* Pencil Cone 5 *)
    call_setRotations (Vec3 (f32 10.0) (f32 0.0) (f32 5.0));
    call_setPosition (Vec3 (f32 12.74) (f32 7.28) (f32 (-1.49)));
    call_render;
    (* Pencil Cone 6 *)
    call_setRotations (Vec3 (f32 10.0) (f32 0.0) (f32 8.0));
    call_setPosition (Vec3 (f32 12.19) (f32 7.20) (f32 (-1.50)));
    call_render;
    (* Pencil graphite 1 *)
    call_setRotations (Vec3 (f32 0.0) (f32 0.0) (f32 0.0));
    call_setScale (Vec3 (f32 0.15) (f32 1.1) (f32 0.15));
    call_setPosition (Vec3 (f32 13.6) (f32 9.0) (f32 (-3.0)));
    call_setRGBA (Vec4 (float_of_int 0) (float_of_int 0) (float_of_int 0) (float_of_int 1));
    call_setTexture "";
    call_setObjectShaderMaterial "glass";
    call_render;
    (* Pencil graphite 2 *)
    call_setRotations (Vec3 (f32 0.0) (f32 0.0) (f32 10.0));
    call_setPosition (Vec3 (f32 11.68) (f32 7.9) (f32 (-3.40)));
    call_render;
    (* Pencil graphite 3 *)
    call_setRotations (Vec3 (f32 0.0) (f32 0.0) (f32 14.0));
    call_setPosition (Vec3 (f32 10.89) (f32 7.76) (f32 (-2.8)));
    call_render;
    (* Pencil graphite 4 *)
    call_setRotations (Vec3 (f32 10.0) (f32 0.0) (f32 0.0));
    call_setPosition (Vec3 (f32 13.3) (f32 7.32) (f32 (-1.49)));
    call_render;
    (* Pencil graphite 5 *)
    call_setRotations (Vec3 (f32 10.0) (f32 0.0) (f32 5.0));
    call_setPosition (Vec3 (f32 12.74) (f32 7.28) (f32 (-1.49)));
    call_render;
    (* Pencil graphite 6 *)
    call_setRotations (Vec3 (f32 10.0) (f32 0.0) (f32 8.0));
    call_setPosition (Vec3 (f32 12.19) (f32 7.20) (f32 (-1.5)));
    call_render;
    (* --- Computer --- *)
    (* base *)
    call_setRotations (Vec3 (f32 0.0) (f32 0.0) (f32 0.0));
    call_setScale (Vec3 (f32 6.0) (f32 0.5) (f32 5.0));
    call_setPosition (Vec3 (f32 (-1.0)) (f32 1.0) (f32 (-3.0)));
    call_setRGBA (Vec4 (f32 1.0) (f32 1.0) (f32 1.0) (f32 1.0));
    call_set_uvScale (Vec2 (f32 1.0) (f32 1.0));
    call_setShape box;
    call_setObjectShaderMaterial "soft";
    call_render;
    (* back base *)
    call_setPosition (Vec3 (f32 (-1.0)) (f32 3.5) (f32 (-5.3)));
    call_setRGBA (Vec4 (f32 0.970) (f32 1.0) (f32 1.0) (f32 1.0));
    call_setRotations (Vec3 (f32 100.0) (f32 0.0) (f32 0.0));
    call_render;
    (* attached back base *)
    call_setScale (Vec3 (f32 6.0) (f32 0.5) (f32 2.0));
    call_setPosition (Vec3 (f32 (-1.0)) (f32 5.7) (f32 (-3.8)));
    call_setRGBA (Vec4 (f32 0.970) (f32 1.0) (f32 1.0) (f32 1.0));
    call_setRotations (Vec3 (f32 0.0) (f32 0.0) (f32 0.0));
    call_render;
    (* Monitor main *)
    call_setRotations (Vec3 (f32 90.0) (f32 0.0) (f32 0.0));
    call_setScale (Vec3 (f32 15.0) (f32 0.5) (f32 8.0));
    call_setPosition (Vec3 (f32 (-1.0)) (f32 7.0) (f32 (-3.0)));
    call_setRGBA (Vec4 (f32 1.0) (f32 1.0) (f32 1.0) (f32 1.0));
    call_render;
    (* Monitor black edges *)
    call_setRotations (Vec3 (f32 90.0) (f32 0.0) (f32 0.0));
    call_setScale (Vec3 (f32 14.9) (f32 0.49) (f32 7.0));
    call_setPosition (Vec3 (f32 (-1.0)) (f32 7.4) (f32 (-2.992)));
    call_setRGBA (Vec4 (f32 0.0) (f32 0.0) (f32 0.0) (f32 1.0));
    call_setObjectShaderMaterial "glass";
    call_render;
    (* Monitor viewing area *)
    call_setRotations (Vec3 (f32 90.0) (f32 0.0) (f32 0.0));
    call_setScale (Vec3 (f32 14.2) (f32 0.49) (f32 6.4));
    call_setPosition (Vec3 (f32 (-1.0)) (f32 7.4) (f32 (-2.991)));
    call_setRGBA (Vec4 (f32 0.3) (f32 0.5) (f32 0.2) (f32 1.0));
    call_setTexture "homer";
    call_setObjectShaderMaterial "glass";
    call_render;
    (* Keyboard *)
    call_setRotations (Vec3 (f32 7.0) (f32 5.0) (f32 0.0));
    call_setScale (Vec3 (f32 10.0) (f32 1.0) (f32 3.0));
    call_setPosition (Vec3 (f32 (-2.0)) (f32 1.0) (f32 3.0));
    call_setShape box;
    call_setRGBA (Vec4 (f32 1.0) (f32 1.0) (f32 1.0) (f32 1.0));
    call_setTexture "";
    call_set_uvScale (Vec2 (f32 1.0) (f32 1.0));
    call_setObjectShaderMaterial "soft";
    call_render;
    (* Keyboard keys *)
    call_setRotations (Vec3 (f32 7.0) (f32 5.0) (f32 0.0));
    call_setScale (Vec3 (f32 9.9) (f32 1.01) (f32 2.9));
    call_setPosition (Vec3 (f32 (-2.0)) (f32 1.0) (f32 3.0));
    call_setShape box;
    call_setRGBA (Vec4 (f32 1.0) (f32 1.0) (f32 1.0) (f32 1.0));
    call_setTexture "keys";
    call_set_uvScale (Vec2 (f32 1.0) (f32 1.0));
    call_setObjectShaderMaterial "soft";
    call_render;
    (* mouse *)
    call_setRotations (Vec3 (f32 0.0) (f32 0.0) (f32 0.0));
    call_setScale (Vec3 (f32 1.5) (f32 1.0) (f32 2.0));
    call_setPosition (Vec3 (f32 6.0) (f32 1.0) (f32 3.0));
    call_setShape half_sphere;
    call_setRGBA (Vec4 (f32 1.0) (f32 1.0) (f32 1.0) (f32 1.0));
    call_setTexture "";
    call_set_uvScale (Vec2 (f32 1.0) (f32 1.0));
    call_setObjectShaderMaterial "soft";
    call_render;
    (* mouse button *)
    call_setRotations (Vec3 (f32 0.0) (f32 0.0) (f32 0.0));
    call_setScale (Vec3 (f32 1.15) (f32 0.805) (f32 0.4));
    call_setPosition (Vec3 (f32 6.0) (f32 1.0) (f32 2.25));
    call_setShape half_torus;
    call_setRGBA (Vec4 (f32 0.0) (f32 0.0) (f32 0.0) (f32 1.0));
    call_setTexture "";
    call_set_uvScale (Vec2 (f32 1.0) (f32 1.0));
    call_setObjectShaderMaterial "matte";
    call_render;
    (* --- Draw box for the surface our objects will sit on. --- *)
    (* Cup on Desk *)
    call_setRotations (Vec3 (f32 0.0) (f32 0.0) (f32 0.0));
    call_setScale (Vec3 (f32 1.2) (f32 2.5) (f32 1.2));
    call_setPosition (Vec3 (f32 (-10.0)) (f32 1.0) (f32 0.0));
    call_setShape cylinder;
    call_setRGBA (Vec4 (f32 1.0) (f32 1.0) (f32 1.0) (f32 1.0));
    call_setTexture "";
    call_setObjectShaderMaterial "soft";
    call_render;
    (* Cup handle *)
    call_setRotations (Vec3 (f32 90.0) (f32 90.0) (f32 0.0));
    call_setScale (Vec3 (f32 0.7) (f32 0.9) (f32 0.7));
    call_setPosition (Vec3 (f32 (-10.0)) (f32 2.3) (f32 1.0));
    call_setShape half_torus;
    call_setRGBA (Vec4 (f32 1.0) (f32 1.0) (f32 1.0) (f32 1.0));
    call_setTexture "";
    call_setObjectShaderMaterial "soft";
    call_render;
    (* water in cup *)
    call_setRotations (Vec3 (f32 0.0) (f32 0.0) (f32 0.0));
    call_setScale (Vec3 (f32 1.0) (f32 2.51) (f32 1.0));
    call_setPosition (Vec3 (f32 (-10.0)) (f32 1.0) (f32 0.0));
    call_setShape cylinder;
    call_setRGBA (Vec4 (f32 0.0) (f32 0.0) (f32 0.0) (f32 1.0));
    call_setTexture "water";
    call_set_uvScale (Vec2 (f32 1.0) (f32 1.0));
    call_setObjectShaderMaterial "glass";
    call_render;
    (* Book 1 on Desk *)
    call_setRotations (Vec3 (f32 0.0) (f32 0.0) (f32 0.0));
    call_setScale (Vec3 (f32 5.0) (f32 1.0) (f32 6.0));
    call_setPosition (Vec3 (f32 (-16.0)) (f32 1.0) (f32 (-4.0)));
    call_setShape box;
    call_setRGBA (Vec4 (f32 0.44) (f32 0.23) (f32 1.0) (f32 1.0));
    call_setTexture "";
    call_setObjectShaderMaterial "soft";
    call_render;
    (* Book 1 paper *)
    call_setRotations (Vec3 (f32 0.0) (f32 0.0) (f32 0.0));
    call_setScale (Vec3 (f32 4.81) (f32 0.4) (f32 6.1));
    call_setPosition (Vec3 (f32 (-15.9)) (f32 1.27) (f32 (-4.0)));
    call_setShape box;
    call_setRGBA (Vec4 (f32 1.0) (f32 1.0) (f32 1.0) (f32 1.0));
    call_setTexture "";
    call_setObjectShaderMaterial "glass";
    call_render;
    (* Book 2 on Desk *)
    call_setRotations (Vec3 (f32 0.0) (f32 15.0) (f32 0.0));
    call_setScale (Vec3 (f32 5.0) (f32 0.45) (f32 6.0));
    call_setPosition (Vec3 (f32 (-16.0)) (f32 1.75) (f32 (-4.0)));
    call_setShape box;
    call_setRGBA (Vec4 (f32 1.0) (f32 0.7) (f32 0.22) (f32 1.0));
    call_setTexture "";
    call_setObjectShaderMaterial "wood";
    call_render;
    (* Book 2 paper *)
    call_setRotations (Vec3 (f32 0.0) (f32 15.0) (f32 0.0));
    call_setScale (Vec3 (f32 4.81) (f32 0.4) (f32 6.1));
    call_setPosition (Vec3 (f32 (-15.9)) (f32 1.75) (f32 (-4.0)));
    call_setShape box;
    call_setRGBA (Vec4 (f32 1.0) (f32 1.0) (f32 1.0) (f32 1.0));
    call_setTexture "";
    call_setObjectShaderMaterial "glass";
    call_render;
    (* Book 1 on Desk *)
    call_setRotations (Vec3 (f32 0.0) (f32 0.0) (f32 0.0));
    call_setScale (Vec3 (f32 5.0) (f32 0.45) (f32 6.0));
    call_setPosition (Vec3 (f32 (-16.0)) (f32 2.20) (f32 (-4.0)));
    call_setShape box;
    call_setRGBA (Vec4 (f32 0.44) (f32 0.23) (f32 1.0) (f32 1.0));
    call_setTexture "drywall";
    call_setObjectShaderMaterial "soft";
    call_render;
    (* Book 1 paper *)
    call_setRotations (Vec3 (f32 0.0) (f32 0.0) (f32 0.0));
    call_setScale (Vec3 (f32 4.81) (f32 0.4) (f32 6.1));
    call_setPosition (Vec3 (f32 (-15.9)) (f32 2.20) (f32 (-4.0)));
    call_setShape box;
    call_setRGBA (Vec4 (f32 1.0) (f32 1.0) (f32 1.0) (f32 1.0));
    call_setTexture "";
    call_setObjectShaderMaterial "glass";
    call_render;
    (* Desktop *)
    call_setRotations (Vec3 (f32 0.0) (f32 0.0) (f32 0.0));
    call_setScale (Vec3 (f32 40.0) (f32 2.0) (f32 20.0));
    call_setPosition (Vec3 (f32 0.0) (f32 0.0) (f32 0.0));
    call_setRGBA (Vec4 (f32 0.773) (f32 0.78) (f32 0.702) (float_of_int 1));
    call_setShape box;
    call_setTexture "wood";
    call_set_uvScale (Vec2 (f32 3.0) (f32 3.0));
    call_setObjectShaderMaterial "wood";
    call_render;
    (* FR Desk Leg *)
    call_setRotations (Vec3 (f32 180.0) (f32 0.0) (f32 0.0));
    call_setScale (Vec3 (f32 1.0) (f32 18.0) (f32 1.0));
    call_setPosition (Vec3 (f32 18.0) (f32 0.0) (f32 8.0));
    call_setShape cylinder;
    call_setRGBA (Vec4 (f32 0.369) (f32 0.369) (f32 0.369) (float_of_int 1));
    call_setTexture "";
    call_setObjectShaderMaterial "metal";
    call_render;
    (* FL Desk Leg *)
    call_setPosition (Vec3 (f32 (-18.0)) (f32 0.0) (f32 8.0));
    call_render;
    (* RL Desk Leg *)
    call_setPosition (Vec3 (f32 (-18.0)) (f32 0.0) (f32 (-8.0)));
    call_render;
    (* RR Desk Leg *)
    call_setPosition (Vec3 (f32 18.0) (f32 0.0) (f32 (-8.0)));
    call_render;
    (* --- Room --- *)
    (* North Wall 1 *)
    call_setRotations (Vec3 (f32 90.0) (f32 0.0) (f32 0.0));
    call_setScale (Vec3 (f32 20.0) (f32 1.0) (f32 25.0));
    call_setPosition (Vec3 (f32 60.0) (f32 26.0) (f32 (-50.0)));
    call_setRGBA (Vec4 (f32 0.612) (f32 0.612) (f32 0.612) (float_of_int 1));
    call_setShape plane;
    call_setTexture "drywall";
    call_set_uvScale (Vec2 (f32 3.0) (f32 3.0));
    call_setObjectShaderMaterial "wall";
    call_render;
    (* South Wall *)
    call_setScale (Vec3 (f32 80.0) (f32 1.0) (f32 44.0));
    call_setPosition (Vec3 (f32 0.0) (f32 26.0) (f32 80.0));
    call_render;
    (* North Wall 2 *)
    call_setScale (Vec3 (f32 20.0) (f32 1.0) (f32 25.0));
    call_setPosition (Vec3 (f32 (-60.0)) (f32 26.0) (f32 (-50.0)));
    call_render;
    (* North Wall 3 *)
    call_setScale (Vec3 (f32 80.0) (f32 1.0) (f32 10.0));
    call_setPosition (Vec3 (f32 0.0) (f32 (-8.0)) (f32 (-50.0)));
    call_render;
    (* North Wall 4 *)
    call_setPosition (Vec3 (f32 0.0) (f32 60.0) (f32 (-50.0)));
    call_set_uvScale (Vec2 (f32 5.0) (f32 1.3));
    call_render;
    (* East Wall *)
    call_setRotations (Vec3 (f32 0.0) (f32 0.0) (f32 90.0));
    call_setScale (Vec3 (f32 44.0) (f32 1.0) (f32 65.0));
    call_set_uvScale (Vec2 (f32 3.0) (f32 3.0));
    call_setPosition (Vec3 (f32 80.0) (f32 26.0) (f32 15.0));
    call_render;
    (* West Wall *)
    call_setPosition (Vec3 (f32 (-80.0)) (f32 26.0) (f32 15.0));
    call_render;
    (* Ceiling *)
    call_setRotations (Vec3 (f32 0.0) (f32 0.0) (f32 0.0));
    call_setScale (Vec3 (f32 80.0) (f32 1.0) (f32 65.0));
    call_setPosition (Vec3 (f32 0.0) (f32 70.0) (f32 15.0));
    call_setRGBA (Vec4 (f32 0.467) (f32 0.467) (f32 0.58) (float_of_int 1));
    call_setTexture "";
    call_render;
    (* Ceiling Light *)
    call_setShape sphere;
    call_setRotations (Vec3 (f32 0.0) (f32 0.0) (f32 0.0));
    call_setScale (Vec3 (f32 5.0) (f32 5.0) (f32 5.0));
    call_setPosition (Vec3 (f32 0.0) (f32 71.0) (f32 0.0));
    call_setRGBA (Vec4 (f32 1.0) (f32 1.0) (f32 1.0) (float_of_int 1));
    call_setTexture "";
    call_setObjectShaderMaterial "glass";
    call_render;
    (* Ceiling Light torus *)
    call_setShape torus;
    call_setRotations (Vec3 (f32 90.0) (f32 0.0) (f32 0.0));
    call_setPosition (Vec3 (f32 0.0) (f32 70.0) (f32 0.0));
    call_setRGBA (Vec4 (f32 0.0) (f32 0.0) (f32 0.0) (float_of_int 1));
    call_setObjectShaderMaterial "matte";
    call_render;
    (* Floor *)
    call_setShape plane;
    call_setRotations (Vec3 (f32 0.0) (f32 0.0) (f32 0.0));
    call_setScale (Vec3 (f32 80.0) (f32 1.0) (f32 65.0));
    call_setPosition (Vec3 (f32 0.0) (f32 (-18.0)) (f32 15.0));
    call_setRGBA (Vec4 (f32 0.467) (f32 0.467) (f32 0.58) (float_of_int 1));
    call_setTexture "dark_carpet";
    call_set_uvScale (Vec2 (f32 7.0) (f32 7.0));
    call_setObjectShaderMaterial "matte";
    call_render;
    (* --- Outside --- *)
    (* Sky 1 *)
    call_setRotations (Vec3 (f32 90.0) (f32 0.0) (f32 0.0));
    call_setScale (Vec3 (f32 100.0) (f32 1.0) (f32 100.0));
    call_setPosition (Vec3 (f32 0.0) (f32 0.0) (f32 (-80.0)));
    call_setRGBA (Vec4 (f32 0.725) (f32 0.859) (f32 0.988) (float_of_int 1));
    call_setTexture "clouds";
    call_set_uvScale (Vec2 (f32 3.0) (f32 3.0));
    call_setObjectShaderMaterial "glass";
    call_render;
    (* Sky 2 *)
    call_setRotations (Vec3 (f32 0.0) (f32 0.0) (f32 0.0));
    call_setPosition (Vec3 (f32 0.0) (f32 71.0) (f32 (-80.0)));
    call_render;
    (* Sky 3 *)
    call_setRotations (Vec3 (f32 0.0) (f32 0.0) (f32 90.0));
    call_setPosition (Vec3 (f32 (-81.0)) (f32 0.0) (f32 (-80.0)));
    call_render;
    (* Sky 4 *)
    call_setPosition (Vec3 (f32 81.0) (f32 0.0) (f32 (-80.0)));
    call_render;
    (* Brick wall *)
    call_setRotations (Vec3 (f32 90.0) (f32 0.0) (f32 0.0));
    call_setScale (Vec3 (f32 100.0) (f32 1.0) (f32 18.0));
    call_setPosition (Vec3 (f32 0.0) (f32 0.0) (f32 (-79.0)));
    call_setRGBA (Vec4 (f32 0.961) (f32 0.329) (f32 0.329) (float_of_int 1));
    call_setTexture "orange_brick";
    call_setObjectShaderMaterial "wall";
    call_render;
    (* Hedge *)
    call_setRotations (Vec3 (f32 0.0) (f32 0.0) (f32 0.0));
    call_setScale (Vec3 (f32 200.0) (f32 15.0) (f32 5.0));
    call_setPosition (Vec3 (f32 0.0) (f32 (-10.0)) (f32 (-79.0)));
    call_setRGBA (Vec4 (f32 0.318) (f32 0.961) (f32 0.094) (float_of_double (f64 0.5)));
    call_setTexture "green_vegetation";
    call_set_uvScale (Vec2 (f32 5.0) (f32 1.0));
    call_setShape box;
    call_setObjectShaderMaterial "hedge";
    call_render;
    (* Brick wall topper *)
    call_setRotations (Vec3 (f32 0.0) (f32 0.0) (f32 0.0));
    call_setScale (Vec3 (f32 200.0) (f32 5.0) (f32 5.0));
    call_setPosition (Vec3 (f32 0.0) (f32 19.0) (f32 (-79.0)));
    call_setRGBA (Vec4 (float_of_int 1) (float_of_int 1) (float_of_int 1) (float_of_int 1));
    call_setTexture "cement";
    call_set_uvScale (Vec2 (f32 3.0) (f32 3.0));
    call_setObjectShaderMaterial "soft";
    call_render;
    (* Outside Ground *)
    call_setRotations (Vec3 (f32 0.0) (f32 0.0) (f32 0.0));
    call_setScale (Vec3 (f32 100.0) (f32 1.0) (f32 100.0));
    call_setPosition (Vec3 (f32 0.0) (f32 (-19.0)) (f32 (-80.0)));
    call_setRGBA (Vec4 (f32 0.318) (f32 0.961) (f32 0.094) (float_of_int 1));
    call_setTexture "green_vegetation";
    call_setShape plane;
    call_set_uvScale (Vec2 (f32 30.0) (f32 30.0));
    call_setObjectShaderMaterial "matte";
    call_render
    (* Free up memory. *)
  ].

(** [object* Object = new object(this);], the calls, [delete Object;]. *)
Definition RenderScene : M Machine unit :=
  fun m =>
    match invoke_all RenderScene_calls (object_ctor, m) with
    | Some (_, (_, m')) => Some (tt, m')
    | None => None
    end.

End RenderScene.

(** ** Vocabulary of the properties *)

Section Vocabulary.
Context {glm : GLM}.

(** The texture table as the class keeps it: sixteen elements, of which the
    first [m_loadedTextures] are in use. *)
Definition table_ok (s : SceneManager) : Prop :=
  length (m_textureIDs s) = 16%nat /\ 0 <= m_loadedTextures s <= 16.

(** The tags of the slots in use, slot 0 first. *)
Definition registered (s : SceneManager) : list string :=
  tex_tag <$> take (Z.to_nat (m_loadedTextures s)) (m_textureIDs s).

(** The position of the first occurrence of [tag] in [tags], counted from
    [i]; [default] when there is none. *)
Fixpoint first_index (tag : string) (tags : list string) (i default : Z) : Z :=
  match tags with
  | [] => default
  | t :: rest => if String.eqb t tag then i else first_index tag rest (i + 1) default
  end.

Definition slot_of (tag : string) (tags : list string) : Z :=
  first_index tag tags 0 (-1).

(** A registry that has been constructed on a shader manager and not yet
    destroyed. *)
Definition live (s : SceneManager) : Prop :=
  m_pShaderManager s <> NULL /\ m_basicMeshes s <> NULL /\ table_ok s.

(** The channel counts that CreateGLTexture uploads. *)
Definition supported (channels : Z) : bool :=
  (channels =? 3) || (channels =? 4).

(** The file decodes to an image that CreateGLTexture uploads. *)
Definition loads (w : World) (filename : string) : bool :=
  match stbi_load w filename with
  | Some img => supported (colorChannels img)
  | None => false
  end.

(** A series of calls [CreateGLTexture(filename, tag)]. *)
Fixpoint load_all (files : list (string * string)) : M Machine unit :=
  match files with
  | [] => ret tt
  | (filename, tag) :: rest => _ <- CreateGLTexture filename tag ;; load_all rest
  end.

(** The tags of the calls of the series that succeed, in call order. *)
Definition loaded_tags (w : World) (files : list (string * string)) : list string :=
  snd <$> List.filter (fun call => loads w (fst call)) files.

(** The first record of the vector that carries [tag]. *)
Fixpoint first_material (tag : string) (v : list OBJECT_MATERIAL) : option OBJECT_MATERIAL :=
  match v with
  | [] => None
  | r :: rest => if String.eqb (mat_tag r) tag then Some r else first_material tag rest
  end.

(** The five assignments of FindMaterial on a match. *)
Definition copy_fields (found material : OBJECT_MATERIAL) : OBJECT_MATERIAL :=
  set_shininess (shininess found)
    (set_specularColor (specularColor found)
      (set_diffuseColor (diffuseColor found)
        (set_ambientStrength (ambientStrength found)
          (set_ambientColor (ambientColor found) material)))).

(** The scene manager after the registration at the end of a successful
    CreateGLTexture: the slot [m_loadedTextures] receives the texture name
    and the tag, and the count goes up by one. *)
Definition register (tag : string) (name : Z) (s : SceneManager) : SceneManager :=
  set_m_loadedTextures (m_loadedTextures s + 1)
    (set_m_textureIDs
       (<[Z.to_nat (m_loadedTextures s) := {| tex_tag := tag; ID := name |}]>
          (m_textureIDs s)) s).

(** The world after the calls [evs] have been issued and the next unused
    texture name has become [name]. *)
Definition extend (w : World) (evs : list Event) (name : Z) : World :=
  {| trace := trace w ++ evs; next_texture := name; stbi_load := stbi_load w;
     default_OBJECT_MATERIAL := default_OBJECT_MATERIAL w |}.

(** The matrix that SetTransformations composes from the members of an
    object, as [render] passes them. *)
Definition model_matrix (o : object) : mat4 :=
  (glm_translate (position o)
   * glm_rotate (glm_radians (v3x (rotations o))) (Vec3 (f32 1.0) (f32 0.0) (f32 0.0))
   * glm_rotate (glm_radians (v3y (rotations o))) (Vec3 (f32 0.0) (f32 1.0) (f32 0.0))
   * glm_rotate (glm_radians (v3z (rotations o))) (Vec3 (f32 0.0) (f32 0.0) (f32 1.0))
   * glm_scale (scale o))%glm.

(** The local [material] of SetShaderMaterial after the call of FindMaterial:
    the fields of the first record with the tag when there is one, what the
    declaration left in it otherwise. *)
Definition material_after (tag : string) (v : list OBJECT_MATERIAL)
    (declared : OBJECT_MATERIAL) : OBJECT_MATERIAL :=
  match first_material tag v with
  | Some found => copy_fields found declared
  | None => declared
  end.

Definition material_fields (material : OBJECT_MATERIAL) : list Event :=
  [ setVec3Value "material.ambientColor" (ambientColor material);
    setFloatValue "material.ambientStrength" (ambientStrength material);
    setVec3Value "material.diffuseColor" (diffuseColor material);
    setVec3Value "material.specularColor" (specularColor material);
    setFloatValue "material.shininess" (shininess material) ].

(** The calls of SetShaderMaterial. *)
Definition material_events (tag : string) (v : list OBJECT_MATERIAL)
    (declared : OBJECT_MATERIAL) : list Event :=
  if size v >? 0 then material_fields (material_after tag v declared) else [].

Definition texture_events (o : object) (s : SceneManager) : list Event :=
  if String.eqb (texture o) "" then []
  else [ setIntValue g_UseTextureName 1;
         setSampler2DValue g_TextureValueName (slot_of (texture o) (registered s));
         setVec2Value "UVscale" (Vec2 (v2x (uvScale o)) (v2y (uvScale o))) ].

(** The uniforms that one call of [render] submits on a live registry. *)
Definition render_uniforms (o : object) (s : SceneManager)
    (declared : OBJECT_MATERIAL) : list Event :=
  [ setMat4Value g_ModelName (model_matrix o);
    setIntValue g_UseTextureName 0;
    setVec4Value g_ColorValueName
      (Vec4 (v4x (RGBA o)) (v4y (RGBA o)) (v4z (RGBA o)) (v4w (RGBA o))) ]
  ++ texture_events o s
  ++ (if String.eqb (shaderMaterial o) "" then []
      else material_events (shaderMaterial o) (m_objectMaterials s) declared).

(** The draw method behind a stored function object. *)
Definition body_of (f : std_function) : MeshDraw :=
  match f with
  | lambda body => body
  end.

(** *** Observations on a list of calls *)

Definition is_uniform (e : Event) : bool :=
  match e with
  | setMat4Value _ _ | setIntValue _ _ | setBoolValue _ _ | setFloatValue _ _
  | setVec2Value _ _ | setVec3Value _ _ | setVec4Value _ _
  | setSampler2DValue _ _ => true
  | _ => false
  end.

Definition is_draw (e : Event) : bool :=
  match e with
  | Draw _ => true
  | _ => false
  end.

(** The values written to the [int] uniform [name], oldest first. *)
Definition int_writes (name : string) (evs : list Event) : list Z :=
  flat_map (fun e =>
              match e with
              | setIntValue n v => if String.eqb n name then [v] else []
              | _ => []
              end) evs.

Definition mat4_writes (evs : list Event) : list (string * mat4) :=
  flat_map (fun e =>
              match e with
              | setMat4Value n v => [(n, v)]
              | _ => []
              end) evs.

Definition sampler_writes (evs : list Event) : list (string * Z) :=
  flat_map (fun e =>
              match e with
              | setSampler2DValue n v => [(n, v)]
              | _ => []
              end) evs.

Definition vec2_writes (evs : list Event) : list (string * vec2) :=
  flat_map (fun e =>
              match e with
              | setVec2Value n v => [(n, v)]
              | _ => []
              end) evs.

(** The uniforms of the structure [material] of the shader. *)
Definition is_material_field (e : Event) : bool :=
  match e with
  | setVec3Value n _ | setFloatValue n _ => String.prefix "material." n
  | _ => false
  end.

Definition is_delete (e : Event) : bool :=
  match e with
  | glDeleteTextures _ _ => true
  | _ => false
  end.

(** The texture names passed to [glDeleteTextures]. *)
Definition deleted (evs : list Event) : list Z :=
  flat_map (fun e =>
              match e with
              | glDeleteTextures _ texture => [texture]
              | _ => []
              end) evs.

(** The calls [glGenTextures(1, &ID)] of a loop of [k] rounds in a context
    whose next unused name is [name]. *)
Fixpoint regenerated (k : nat) (name : Z) : list Event :=
  match k with
  | O => []
  | S k' => glGenTextures 1 name :: regenerated k' (name + 1)
  end.

(** *** The statements about the materials "glass" and "screen" *)

(** The values that DefineObjectMaterials assigns under the declaration of
    [screenMaterial]. *)
Definition screen_values (r : OBJECT_MATERIAL) : Prop :=
  ambientColor r = Vec3 (f32 0.298) (f32 0.694) (f32 0.929)
  /\ ambientStrength r = f32 0.2
  /\ diffuseColor r = Vec3 (f32 0.3) (f32 0.3) (f32 0.3)
  /\ specularColor r = Vec3 (f32 0.6) (f32 0.6) (f32 0.6)
  /\ shininess r = f32 10.0.

(** The values assigned to [glassMaterial] before it is pushed. *)
Definition glass_values (r : OBJECT_MATERIAL) : Prop :=
  ambientColor r = Vec3 (f32 0.4) (f32 0.4) (f32 0.4)
  /\ ambientStrength r = f32 0.3
  /\ diffuseColor r = Vec3 (f32 0.3) (f32 0.3) (f32 0.3)
  /\ specularColor r = Vec3 (f32 0.6) (f32 0.6) (f32 0.6)
  /\ shininess r = f32 85.0.

(** No record of the vector is tagged "screen". *)
Definition no_screen (v : list OBJECT_MATERIAL) : Prop :=
  forall r, r ∈ v -> mat_tag r <> "screen".

(** The vector holds a record tagged "glass", and the records so tagged
    hold the screen values. *)
Definition glass_overwritten (v : list OBJECT_MATERIAL) : Prop :=
  (exists r, r ∈ v /\ mat_tag r = "glass")
  /\ (forall r, r ∈ v -> mat_tag r = "glass" -> screen_values r).

(** A computation that leaves the members of the object as they are. *)
Definition keeps_self {A : Type} (c : M Heap A) : Prop :=
  forall o m a o' m', c (o, m) = Some (a, (o', m')) -> o' = o.

(** *** The members of an object *)

Inductive member : Type :=
| member_uvScale
| member_rotations
| member_scale
| member_position
| member_RGBA
| member_shape
| member_texture
| member_shaderMaterial.

Inductive member_value : Type :=
| of_vec2 (v : vec2)
| of_vec3 (v : vec3)
| of_vec4 (v : vec4)
| of_function (f : std_function)
| of_string (s : string).

Definition read (f : member) (o : object) : member_value :=
  match f with
  | member_uvScale => of_vec2 (uvScale o)
  | member_rotations => of_vec3 (rotations o)
  | member_scale => of_vec3 (scale o)
  | member_position => of_vec3 (position o)
  | member_RGBA => of_vec4 (RGBA o)
  | member_shape => of_function (shape o)
  | member_texture => of_string (texture o)
  | member_shaderMaterial => of_string (shaderMaterial o)
  end.

(** The calls that assign the member [f]: its setter, and [resetAll] for
    every member but the function object. *)
Definition sets (c : method_call) (f : member) : bool :=
  match c, f with
  | call_set_uvScale _, member_uvScale
  | call_setRotations _, member_rotations
  | call_setScale _, member_scale
  | call_setPosition _, member_position
  | call_setRGBA _, member_RGBA
  | call_setShape _, member_shape
  | call_setTexture _, member_texture
  | call_setObjectShaderMaterial _, member_shaderMaterial => true
  | call_resetAll, member_shape => false
  | call_resetAll, _ => true
  | _, _ => false
  end.

End Vocabulary.

(** ** Sample data *)

(** GLM with the matrices kept as unevaluated terms. *)
Inductive mat4_term : Type :=
| term_scale (v : vec3)
| term_rotate (angle : float) (axis : vec3)
| term_translate (v : vec3)
| term_mul (a b : mat4_term).

(** [glm::radians]: the degrees times pi / 180, in single precision. *)
Definition degrees_to_radians (degrees : float) : float :=
  SFmul prec32 emax32 degrees (f32 0.01745329251994329576923690768489).

Definition glm_terms : GLM :=
  {| mat4 := mat4_term;
     glm_radians := degrees_to_radians;
     glm_scale := term_scale;
     glm_rotate := term_rotate;
     glm_translate := term_translate;
     mat4_mul := term_mul |}.

(** A decoder that knows the fourteen files of LoadSceneTextures and one
    single-channel image. *)
Definition sample_files : list (string * Image) :=
  [ ("Textures/dark_ceramic.jpg", {| width := 1024; height := 1024; colorChannels := 3 |});
    ("Textures/cement.jpeg", {| width := 512; height := 512; colorChannels := 3 |});
    ("Textures/clouds.png", {| width := 800; height := 600; colorChannels := 4 |});
    ("Textures/grass.jpg", {| width := 512; height := 512; colorChannels := 3 |});
    ("Textures/drywall.jpg", {| width := 512; height := 512; colorChannels := 3 |});
    ("Textures/dark_carpet.jpg", {| width := 512; height := 512; colorChannels := 3 |});
    ("Textures/wood.jpg", {| width := 640; height := 480; colorChannels := 3 |});
    ("Textures/green_vegetation.jpg", {| width := 512; height := 512; colorChannels := 3 |});
    ("Textures/keys.jpg", {| width := 900; height := 300; colorChannels := 3 |});
    ("Textures/water.jpg", {| width := 512; height := 512; colorChannels := 3 |});
    ("Textures/orange_brick.jpg", {| width := 512; height := 512; colorChannels := 3 |});
    ("Textures/paper.jpg", {| width := 512; height := 512; colorChannels := 3 |});
    ("Textures/pencil.jpg", {| width := 64; height := 512; colorChannels := 3 |});
    ("Textures/homer.gif", {| width := 320; height := 240; colorChannels := 4 |});
    ("Textures/gray.png", {| width := 16; height := 16; colorChannels := 1 |}) ].

Definition sample_decoder (filename : string) : option Image :=
  snd <$> List.find (fun entry => String.eqb (fst entry) filename) sample_files.

Definition sample_world : World (glm := glm_terms) :=
  {| trace := [];
     next_texture := 1;
     stbi_load := sample_decoder;
     default_OBJECT_MATERIAL :=
       {| ambientStrength := f32 0.0;
          ambientColor := Vec3 (f32 0.0) (f32 0.0) (f32 0.0);
          diffuseColor := Vec3 (f32 0.0) (f32 0.0) (f32 0.0);
          specularColor := Vec3 (f32 0.0) (f32 0.0) (f32 0.0);
          shininess := f32 0.0;
          mat_tag := "" |} |}.

(** The calls of LoadSceneTextures, as a series. *)
Definition scene_textures : list (string * string) :=
  [ ("Textures/dark_ceramic.jpg", "dark_ceramic");
    ("Textures/cement.jpeg", "cement");
    ("Textures/clouds.png", "clouds");
    ("Textures/grass.jpg", "grass");
    ("Textures/drywall.jpg", "drywall");
    ("Textures/dark_carpet.jpg", "dark_carpet");
    ("Textures/wood.jpg", "wood");
    ("Textures/green_vegetation.jpg", "green_vegetation");
    ("Textures/keys.jpg", "keys");
    ("Textures/water.jpg", "water");
    ("Textures/orange_brick.jpg", "orange_brick");
    ("Textures/paper.jpg", "paper");
    ("Textures/pencil.jpg", "pencil");
    ("Textures/homer.gif", "homer") ].

(** The machine that a computation leaves when it has a result. *)
Definition machine_after (c : M (Machine (glm := glm_terms)) unit)
    (m : Machine (glm := glm_terms)) : Machine (glm := glm_terms) :=
  match c m with
  | Some (_, m') => m'
  | None => m
  end.

(** A registry constructed on a shader manager, in the sample world. *)
Definition sample_constructed : Machine (glm := glm_terms) :=
  Eval vm_compute in
    machine_after (SceneManager_ctor (Addr 2)) {| scene := storage; world := sample_world |}.

(** The same registry after PrepareScene. *)
Definition sample_prepared : Machine (glm := glm_terms) :=
  Eval vm_compute in machine_after PrepareScene sample_constructed.

Definition heap_after (c : M (Heap (glm := glm_terms)) unit)
    (h : Heap (glm := glm_terms)) : Heap (glm := glm_terms) :=
  match c h with
  | Some (_, h') => h'
  | None => h
  end.

(** The object of RenderScene after the outer cup has been drawn, and after
    the inner cup. *)
Definition sample_outer_cup : Heap (glm := glm_terms) :=
  Eval vm_compute in heap_after (invoke_all outer_cup) (object_ctor, sample_prepared).

Definition sample_inner_cup : Heap (glm := glm_terms) :=
  Eval vm_compute in heap_after (invoke_all inner_cup) sample_outer_cup.

(** The registry after the fourteen loads of LoadSceneTextures alone. *)
Definition sample_loaded : Machine (glm := glm_terms) :=
  Eval vm_compute in machine_after (load_all scene_textures) sample_constructed.

(** The fresh registry after DefineObjectMaterials alone. *)
Definition sample_defined : Machine (glm := glm_terms) :=
  Eval vm_compute in machine_after DefineObjectMaterials sample_constructed.

(** The prepared registry after its destructor has run. *)
Definition sample_destroyed : Machine (glm := glm_terms) :=
  Eval vm_compute in machine_after SceneManager_dtor sample_prepared.

(** ** Vocabulary of the further properties *)

Section FurtherVocabulary.
Context {glm : GLM}.

(** The slots in use, slot 0 first. *)
Definition in_use (s : SceneManager) : list TEXTURE_INFO :=
  take (Z.to_nat (m_loadedTextures s)) (m_textureIDs s).

(** The texture name, as an [int], of the first of the slots [l] that
    carries [tag]; [default] when there is none. *)
Fixpoint first_ID (tag : string) (l : list TEXTURE_INFO) (default : Z) : Z :=
  match l with
  | [] => default
  | t :: rest =>
      if String.eqb (tex_tag t) tag then int_of_GLuint (ID t)
      else first_ID tag rest default
  end.

(** The calls of BindGLTextures for the slots [l], the first of which is
    slot [i]. *)
Fixpoint bindings (l : list TEXTURE_INFO) (i : Z) : list Event :=
  match l with
  | [] => []
  | t :: rest =>
      glActiveTexture i :: glBindTexture GL_TEXTURE_2D (ID t) :: bindings rest (i + 1)
  end.

(** The calls of a CreateGLTexture that succeeds on the image [img], in a
    context whose next unused texture name is [name]. *)
Definition upload_events (filename : string) (img : Image) (name : Z) : list Event :=
  [ stbi_set_flip_vertically_on_load true;
    cout_loaded filename (width img) (height img) (colorChannels img);
    glGenTextures 1 name;
    glBindTexture GL_TEXTURE_2D name;
    glTexParameteri GL_TEXTURE_2D GL_TEXTURE_WRAP_S GL_REPEAT;
    glTexParameteri GL_TEXTURE_2D GL_TEXTURE_WRAP_T GL_REPEAT;
    glTexParameteri GL_TEXTURE_2D GL_TEXTURE_MIN_FILTER GL_LINEAR;
    glTexParameteri GL_TEXTURE_2D GL_TEXTURE_MAG_FILTER GL_LINEAR;
    (if colorChannels img =? 3
     then glTexImage2D GL_RGB8 (width img) (height img) GL_RGB
     else glTexImage2D GL_RGBA8 (width img) (height img) GL_RGBA);
    glGenerateMipmap GL_TEXTURE_2D;
    stbi_image_free;
    glBindTexture GL_TEXTURE_2D 0 ].

(** The object after one call of the builder. *)
Definition after_call (c : method_call) (o : object) : object :=
  match c with
  | call_set_uvScale v => with_uvScale v o
  | call_setRotations v => with_rotations v o
  | call_setScale v => with_scale v o
  | call_setPosition v => with_position v o
  | call_setRGBA v => with_RGBA v o
  | call_setShape f => with_shape f o
  | call_setTexture t => with_texture t o
  | call_setObjectShaderMaterial t => with_shaderMaterial t o
  | call_render => o
  | call_resetAll => with_shape (shape o) object_ctor
  end.

Definition after_calls (cs : list method_call) (o : object) : object :=
  fold_left (fun o c => after_call c o) cs o.

(** The calls that a sequence of builder calls issues on a live registry:
    those of each [render], for the object as it is at that point. *)
Fixpoint issued_by (cs : list method_call) (o : object) (s : SceneManager)
    (declared : OBJECT_MATERIAL) : list Event :=
  match cs with
  | [] => []
  | call_render :: rest =>
      (render_uniforms o s declared ++ [Draw (body_of (shape o))])
      ++ issued_by rest o s declared
  | c :: rest => issued_by rest (after_call c o) s declared
  end.

(** The meshes drawn by a sequence of builder calls that starts with the
    function object [f] stored: one per [render], the one of the latest
    [setShape]. *)
Fixpoint drawn (cs : list method_call) (f : std_function) : list MeshDraw :=
  match cs with
  | [] => []
  | call_setShape g :: rest => drawn rest g
  | call_render :: rest => body_of f :: drawn rest f
  | _ :: rest => drawn rest f
  end.

(** The tag is the empty one or is carried by one of [tags]. *)
Definition texture_resolves (tags : list string) (t : string) : bool :=
  String.eqb t "" || existsb (String.eqb t) tags.

Definition textures_resolve (tags : list string) (cs : list method_call) : bool :=
  forallb (fun c => match c with
                    | call_setTexture t => texture_resolves tags t
                    | _ => true
                    end) cs.

(** The tag is the empty one or is carried by a record of [v]. *)
Definition material_resolves (v : list OBJECT_MATERIAL) (t : string) : bool :=
  String.eqb t "" || existsb (fun r => String.eqb (mat_tag r) t) v.

Definition materials_resolve (v : list OBJECT_MATERIAL) (cs : list method_call) : bool :=
  forallb (fun c => match c with
                    | call_setObjectShaderMaterial t => material_resolves v t
                    | _ => true
                    end) cs.

(** The same machine with another content for a default-constructed
    [OBJECT_MATERIAL]. *)
Definition with_default (d : OBJECT_MATERIAL) (m : Machine) : Machine :=
  {| scene := scene m;
     world := {| trace := trace (world m); next_texture := next_texture (world m);
                 stbi_load := stbi_load (world m); default_OBJECT_MATERIAL := d |} |}.

(** The sampler values lie in the slots in use. *)
Definition samplers_in_use (loaded : Z) (evs : list Event) : bool :=
  forallb (fun nv => String.eqb (fst nv) g_TextureValueName
                     && (0 <=? snd nv) && (snd nv <? loaded))
          (sampler_writes evs).

End FurtherVocabulary.

(** The seven records that DefineObjectMaterials pushes, as the program
    computes them. *)
Definition scene_materials : list OBJECT_MATERIAL :=
  Eval vm_compute in m_objectMaterials (scene sample_defined).

(** A world in which a seventeenth texture file exists. *)
Definition seventeen_files : list (string * string) :=
  scene_textures
  ++ [ ("Textures/wood.jpg", "wood2"); ("Textures/keys.jpg", "keys2");
       ("Textures/clouds.png", "clouds2") ].

(** The prepared registry after RenderScene. *)
Definition sample_rendered : Machine (glm := glm_terms) :=
  Eval vm_compute in machine_after RenderScene sample_prepared.

(** ** Strings *)

Lemma Ascii_compare_refl (a : Ascii.ascii) : Ascii.compare a a = Eq.
Proof. unfold Ascii.compare. apply N.compare_refl. Qed.

Lemma String_compare_refl (a : string) : String.compare a a = Eq.
Proof.
  induction a as [|c a IH]; simpl; [reflexivity|].
  rewrite Ascii_compare_refl. exact IH.
Qed.

Lemma compare_zero (a b : string) : (compare a b =? 0) = String.eqb a b.
Proof.
  unfold compare. destruct (String.eqb_spec a b) as [->|Hne].
  - rewrite String_compare_refl. reflexivity.
  - destruct (String.compare a b) eqn:Hc; try reflexivity.
    apply String.compare_eq_iff in Hc. contradiction.
Qed.

(** ** Symbolic execution of the methods *)

Ltac run :=
  cbv beta iota zeta delta
    [bind ret gets modify undefined when emit assign this shader meshes gen_texture
     textureIDs_at textureIDs_update push_back
     self self_assign scenePtr call
     set_world set_trace set_next_texture set_scene
     set_m_pShaderManager set_m_basicMeshes set_m_textureIDs set_m_loadedTextures
     set_m_objectMaterials register extend
     scene world trace next_texture stbi_load default_OBJECT_MATERIAL
     m_pShaderManager m_basicMeshes m_textureIDs m_loadedTextures m_objectMaterials
     uvScale rotations scale position RGBA shape texture shaderMaterial
     is_NULL negb int_of_bool body_of fst snd].

Ltac flatten_trace := rewrite <- ?app_assoc; cbn [app].

(** ** The search loops *)

Ltac rewrite_clauses :=
  repeat match goal with
         | H : ?x = true |- context [?x] => rewrite H
         | H : ?x = false |- context [?x] => rewrite H
         | H : ?x = Some _ |- context [?x] => rewrite H
         | H : ?x = None |- context [?x] => rewrite H
         end.

Section Loops.
Context {glm : GLM}.

Lemma FindTextureSlot_while_step s tag textureSlot index bFound :
  FindTextureSlot_while s tag textureSlot index bFound =
  if (index <? m_loadedTextures s) && Bool.eqb bFound false then
    match element (m_textureIDs s) index with
    | None => None
    | Some t =>
        if compare (tex_tag t) tag =? 0
        then FindTextureSlot_while s tag index index true
        else FindTextureSlot_while s tag textureSlot (index + 1) bFound
    end
  else Some textureSlot.
Proof.
  funelim (FindTextureSlot_while s tag textureSlot index bFound);
    rewrite_clauses; reflexivity.
Qed.

Lemma FindMaterial_while_step s tag material index bFound :
  FindMaterial_while s tag material index bFound =
  if (index <? size (m_objectMaterials s)) && Bool.eqb bFound false then
    match at_index (m_objectMaterials s) index with
    | None => None
    | Some found =>
        if compare (mat_tag found) tag =? 0
        then FindMaterial_while s tag (copy_fields found material) index true
        else FindMaterial_while s tag material (index + 1) bFound
    end
  else Some (material, bFound).
Proof.
  funelim (FindMaterial_while s tag material index bFound);
    rewrite_clauses; reflexivity.
Qed.

Lemma element_in_use s index :
  table_ok s -> 0 <= index < m_loadedTextures s ->
  exists t, element (m_textureIDs s) index = Some t
            /\ drop (Z.to_nat index) (registered s)
               = tex_tag t :: drop (Z.to_nat (index + 1)) (registered s).
Proof.
  intros [Hlen Hn] Hi. unfold element.
  destruct (Z.leb_spec 0 index); [|lia].
  destruct (lookup_lt_is_Some_2 (m_textureIDs s) (Z.to_nat index)) as [t Ht]; [lia|].
  exists t. split; [exact Ht|].
  replace (Z.to_nat (index + 1)) with (S (Z.to_nat index)) by lia.
  apply drop_S. unfold registered.
  rewrite list_lookup_fmap, lookup_take_lt by lia.
  rewrite Ht. reflexivity.
Qed.

(** The loop of FindTextureSlot finds the first slot in use that carries
    the tag. *)
Lemma FindTextureSlot_while_spec s tag textureSlot (k : nat) : forall index,
  table_ok s -> 0 <= index <= m_loadedTextures s ->
  Z.to_nat (m_loadedTextures s - index) = k ->
  FindTextureSlot_while s tag textureSlot index false
  = Some (first_index tag (drop (Z.to_nat index) (registered s)) index textureSlot).
Proof.
  induction k as [|k IH]; intros index Hok Hi Hk;
    rewrite FindTextureSlot_while_step.
  - destruct (Z.ltb_spec index (m_loadedTextures s)); [lia|]. simpl.
    rewrite drop_ge; [reflexivity|].
    unfold registered. rewrite length_fmap, length_take. lia.
  - destruct (Z.ltb_spec index (m_loadedTextures s)); [|lia]. simpl.
    destruct (element_in_use s index Hok) as (t & -> & ->); [lia|].
    rewrite compare_zero. simpl.
    destruct (String.eqb (tex_tag t) tag).
    + rewrite FindTextureSlot_while_step.
      rewrite andb_false_r. reflexivity.
    + rewrite IH by (try assumption; lia). reflexivity.
Qed.

Lemma FindTextureSlot_spec tag m :
  table_ok (scene m) ->
  FindTextureSlot tag m = Some (slot_of tag (registered (scene m)), m).
Proof.
  intros Hok. unfold FindTextureSlot, bind, gets.
  rewrite (FindTextureSlot_while_spec _ _ _ _ 0 Hok ltac:(destruct Hok; lia) eq_refl).
  reflexivity.
Qed.

End Loops.

(** ** The texture table *)

Section TextureTable.
Context {glm : GLM}.

Lemma registered_register tag name s :
  table_ok s -> m_loadedTextures s < 16 ->
  table_ok (register tag name s)
  /\ registered (register tag name s) = registered s ++ [tag].
Proof.
  intros [Hlen Hn] Hlt. unfold table_ok, registered, register. cbn.
  rewrite length_insert. split; [lia|].
  replace (Z.to_nat (m_loadedTextures s + 1)) with (S (Z.to_nat (m_loadedTextures s))) by lia.
  rewrite (take_S_r _ _ {| tex_tag := tag; ID := name |})
    by (apply list_lookup_insert_eq; lia).
  rewrite take_insert_ge by lia.
  rewrite fmap_app. reflexivity.
Qed.

(** A file that does not decode, or decodes to an unsupported channel
    count, makes CreateGLTexture answer [false] and leaves every member of
    the scene manager as it was. *)
Lemma CreateGLTexture_rejects filename tag m :
  loads (world m) filename = false ->
  exists evs name,
    CreateGLTexture filename tag m
    = Some (false, {| scene := scene m; world := extend (world m) evs name |}).
Proof.
  destruct m as [[p bm ids n mats] [t nt ld d]].
  unfold CreateGLTexture, loads, supported. run.
  destruct (ld filename) as [img|] eqn:Himg; run.
  2:{ intros _. do 2 eexists. flatten_trace. reflexivity. }
  destruct (colorChannels img =? 3); [discriminate|].
  destruct (colorChannels img =? 4); [discriminate|].
  intros _. run. do 2 eexists. flatten_trace. reflexivity.
Qed.

(** A file that decodes to three or four channels is registered in the slot
    [m_loadedTextures]; with all sixteen slots in use the slot is outside
    the array. *)
Lemma CreateGLTexture_accepts filename tag m :
  table_ok (scene m) ->
  loads (world m) filename = true ->
  exists evs name,
    CreateGLTexture filename tag m =
    if m_loadedTextures (scene m) <? 16 then
      Some (true, {| scene := register tag (next_texture (world m)) (scene m);
                     world := extend (world m) evs name |})
    else None.
Proof.
  destruct m as [[p bm ids n mats] [t nt ld d]]. intros [Hlen Hn]. cbn in Hlen, Hn.
  unfold CreateGLTexture, loads, supported. run.
  destruct (ld filename) as [img|] eqn:Himg; run; [|discriminate].
  assert (Hslot : n < 16 -> exists t0, element ids n = Some t0
            /\ element (<[Z.to_nat n := set_ID nt t0]> ids) n = Some (set_ID nt t0)).
  { intros Hlt. unfold element. destruct (Z.leb_spec 0 n); [|lia].
    destruct (lookup_lt_is_Some_2 ids (Z.to_nat n)) as [t0 Ht0]; [lia|].
    exists t0. split; [exact Ht0|]. apply list_lookup_insert_eq. lia. }
  assert (Hfull : ~ n < 16 -> element ids n = None).
  { intros Hge. unfold element. destruct (Z.leb_spec 0 n); [|reflexivity].
    apply lookup_ge_None_2. lia. }
  destruct (colorChannels img =? 3) eqn:H3; [|destruct (colorChannels img =? 4) eqn:H4];
    run; cbn [orb]; [| |discriminate]; intros _.
  all: destruct (Z.ltb_spec n 16) as [Hlt|Hge].
  all: try (rewrite (Hfull ltac:(lia)); do 2 exists inhabitant; reflexivity).
  all: destruct (Hslot Hlt) as (t0 & -> & He2); run; rewrite He2; run.
  all: rewrite list_insert_insert_eq; do 2 eexists; flatten_trace; reflexivity.
Qed.

Lemma loaded_tags_cons w filename tag files :
  loaded_tags w ((filename, tag) :: files)
  = (if loads w filename then [tag] else []) ++ loaded_tags w files.
Proof. unfold loaded_tags. cbn. destruct (loads w filename); reflexivity. Qed.

(** A series of loads that runs to its end appends the tags of its
    successful calls, in order, to the slots in use. *)
Lemma load_all_registered files : forall m m',
  table_ok (scene m) ->
  load_all files m = Some (tt, m') ->
  table_ok (scene m')
  /\ registered (scene m') = registered (scene m) ++ loaded_tags (world m) files
  /\ stbi_load (world m') = stbi_load (world m)
  /\ m_pShaderManager (scene m') = m_pShaderManager (scene m)
  /\ m_basicMeshes (scene m') = m_basicMeshes (scene m).
Proof.
  induction files as [|[filename tag] files IH]; intros m m' Hok Hrun.
  - cbn in Hrun. injection Hrun as <-. rewrite app_nil_r. auto.
  - cbn [load_all] in Hrun. unfold bind in Hrun.
    rewrite loaded_tags_cons.
    destruct (loads (world m) filename) eqn:Hl.
    + destruct (CreateGLTexture_accepts filename tag m Hok Hl) as (evs & name & Hc).
      rewrite Hc in Hrun.
      destruct (Z.ltb_spec (m_loadedTextures (scene m)) 16) as [Hlt|]; [|discriminate].
      destruct (registered_register tag (next_texture (world m)) (scene m) Hok Hlt)
        as [Hok' Hreg].
      apply IH in Hrun as (H1 & H2 & H3 & H4 & H5); [|exact Hok'].
      cbn [scene world] in *.
      rewrite H2, Hreg, <- app_assoc.
      exact (conj H1 (conj eq_refl (conj H3 (conj H4 H5)))).
    + destruct (CreateGLTexture_rejects filename tag m Hl) as (evs & name & Hc).
      rewrite Hc in Hrun.
      apply IH in Hrun as (H1 & H2 & H3 & H4 & H5); [|exact Hok].
      cbn [scene world] in *.
      exact (conj H1 (conj H2 (conj H3 (conj H4 H5)))).
Qed.

Lemma new_SceneManager_eq pShaderManager w :
  new_SceneManager pShaderManager w
  = Some (tt, {| scene := {| m_pShaderManager := pShaderManager;
                             m_basicMeshes := new_ShapeMeshes;
                             m_textureIDs :=
                               replicate 16 {| tex_tag := "/0"; ID := 4294967295 |};
                             m_loadedTextures := 0;
                             m_objectMaterials := [] |};
                 world := w |}).
Proof. reflexivity. Qed.

Lemma new_SceneManager_table pShaderManager w m :
  new_SceneManager pShaderManager w = Some (tt, m) ->
  table_ok (scene m) /\ registered (scene m) = [] /\ world m = w
  /\ m_pShaderManager (scene m) = pShaderManager.
Proof.
  rewrite new_SceneManager_eq. intros [= <-]. unfold table_ok. cbn.
  repeat split; lia.
Qed.

(** *** Positions in a list of tags *)

Lemma first_index_absent tag tags : forall i default,
  tag ∉ tags -> first_index tag tags i default = default.
Proof.
  induction tags as [|t tags IH]; intros i default Hnot; cbn; [reflexivity|].
  apply not_elem_of_cons in Hnot as [Hne Hnot].
  destruct (String.eqb_spec t tag); [congruence|]. apply IH, Hnot.
Qed.

Lemma first_index_present tag tags : forall i default,
  tag ∈ tags ->
  exists k : nat,
    first_index tag tags i default = i + Z.of_nat k
    /\ tags !! k = Some tag
    /\ (forall j : nat, (j < k)%nat -> tags !! j <> Some tag).
Proof.
  induction tags as [|t tags IH]; intros i default Hin; [inversion Hin|].
  cbn. destruct (String.eqb_spec t tag) as [->|Hne].
  - exists 0%nat. repeat split; [lia|]. intros j Hj. lia.
  - apply elem_of_cons in Hin as [Heq|Hin]; [congruence|].
    destruct (IH (i + 1) default Hin) as (k & Hk & Hat & Hfirst).
    exists (S k). repeat split; [lia|exact Hat|].
    intros [|j] Hj; cbn; [congruence|]. apply Hfirst. lia.
Qed.

Lemma first_index_app tag tags more : forall i default,
  tag ∈ tags ->
  first_index tag (tags ++ more) i default = first_index tag tags i default.
Proof.
  induction tags as [|t tags IH]; intros i default Hin; [inversion Hin|].
  cbn. destruct (String.eqb_spec t tag) as [->|Hne]; [reflexivity|].
  apply elem_of_cons in Hin as [Heq|Hin]; [congruence|]. apply IH, Hin.
Qed.

End TextureTable.

(** ** The material table *)

Section Materials.
Context {glm : GLM}.

Lemma at_index_inside (v : list OBJECT_MATERIAL) index :
  0 <= index < size v ->
  exists r, at_index v index = Some r
            /\ drop (Z.to_nat index) v = r :: drop (Z.to_nat (index + 1)) v.
Proof.
  unfold size, at_index. intros Hi.
  destruct (Z.leb_spec 0 index); [|lia].
  destruct (lookup_lt_is_Some_2 v (Z.to_nat index)) as [r Hr]; [lia|].
  exists r. split; [exact Hr|].
  replace (Z.to_nat (index + 1)) with (S (Z.to_nat index)) by lia.
  apply drop_S, Hr.
Qed.

(** The loop of FindMaterial copies the fields of the first record that
    carries the tag and sets the flag; without such a record it leaves the
    referenced material and the flag as they were. *)
Lemma FindMaterial_while_spec s tag material (k : nat) : forall index,
  0 <= index <= size (m_objectMaterials s) ->
  Z.to_nat (size (m_objectMaterials s) - index) = k ->
  FindMaterial_while s tag material index false
  = Some match first_material tag (drop (Z.to_nat index) (m_objectMaterials s)) with
         | Some found => (copy_fields found material, true)
         | None => (material, false)
         end.
Proof.
  induction k as [|k IH]; intros index Hi Hk; rewrite FindMaterial_while_step.
  - destruct (Z.ltb_spec index (size (m_objectMaterials s))); [lia|]. simpl.
    rewrite drop_ge; [reflexivity|]. unfold size in *. lia.
  - destruct (Z.ltb_spec index (size (m_objectMaterials s))); [|lia]. simpl.
    destruct (at_index_inside (m_objectMaterials s) index) as (r & -> & ->); [lia|].
    rewrite compare_zero. simpl.
    destruct (String.eqb (mat_tag r) tag).
    + rewrite FindMaterial_while_step. rewrite andb_false_r. reflexivity.
    + rewrite IH by lia. reflexivity.
Qed.

(** FindMaterial answers [false] on an empty vector and [true] on every
    other one, whether or not a record carries the tag. *)
Lemma FindMaterial_spec tag material m :
  FindMaterial tag material m
  = Some ((negb (size (m_objectMaterials (scene m)) =? 0),
           material_after tag (m_objectMaterials (scene m)) material), m).
Proof.
  unfold FindMaterial, bind, gets, material_after.
  destruct (Z.eqb_spec (size (m_objectMaterials (scene m))) 0) as [Hz|Hnz].
  - unfold size in Hz. destruct (m_objectMaterials (scene m)); [reflexivity|].
    cbn in Hz. lia.
  - rewrite (FindMaterial_while_spec _ _ _ _ 0 ltac:(unfold size; lia) eq_refl).
    change (Z.to_nat 0) with O. rewrite drop_0.
    destruct (first_material tag (m_objectMaterials (scene m))); reflexivity.
Qed.

Lemma SetShaderMaterial_spec tag m :
  m_pShaderManager (scene m) <> NULL ->
  SetShaderMaterial tag m
  = Some (tt, {| scene := scene m;
                 world := extend (world m)
                            (material_events tag (m_objectMaterials (scene m))
                               (default_OBJECT_MATERIAL (world m)))
                            (next_texture (world m)) |}).
Proof.
  intros Hp. unfold SetShaderMaterial, material_events.
  unfold bind at 1. unfold this at 1. unfold gets at 1.
  destruct (Z.gtb_spec (size (m_objectMaterials (scene m))) 0) as [Hpos|Hzero].
  - unfold when at 1. unfold bind at 1, gets at 1. unfold bind at 1.
    rewrite FindMaterial_spec.
    destruct (Z.eqb_spec (size (m_objectMaterials (scene m))) 0) as [|_]; [lia|].
    cbn [negb Bool.eqb when].
    destruct m as [[p bm ids n mats] [t nt ld d]]. cbn in Hp.
    destruct p; [congruence|]. run. cbn [is_NULL]. run.
    unfold material_fields. flatten_trace. reflexivity.
  - destruct m as [[p bm ids n mats] [t nt ld d]]. run.
    rewrite app_nil_r. reflexivity.
Qed.

End Materials.

(** ** One call of render *)

Section Render.
Context {glm : GLM}.

(** On a live registry [render] runs to its end, changes neither the object
    nor the scene manager, and issues its uniforms followed by the call of
    the stored function object. *)
Lemma render_live o m :
  live (scene m) ->
  render (o, m)
  = Some (tt, (o, {| scene := scene m;
                     world := extend (world m)
                                (render_uniforms o (scene m)
                                   (default_OBJECT_MATERIAL (world m))
                                 ++ [Draw (body_of (shape o))])
                                (next_texture (world m)) |})).
Proof.
  destruct m as [[p bm ids n mats] [t nt ld d]].
  destruct o as [uv rot sc pos rgba [body] tex mat].
  intros (Hp & Hbm & Hok). cbn in Hp, Hbm.
  destruct p as [|a]; [congruence|]. destruct bm as [|b]; [congruence|].
  unfold render, render_uniforms, texture_events, model_matrix,
    SetTransformations, SetShaderColor, SetTextureUVScale, SetShaderTexture.
  run.
  destruct (String.eqb tex "") eqn:Htex; run.
  - destruct (String.eqb mat "") eqn:Hmat; run.
    + flatten_trace. reflexivity.
    + rewrite SetShaderMaterial_spec by (cbn; congruence). run.
      flatten_trace. reflexivity.
  - rewrite FindTextureSlot_spec by exact Hok. run.
    destruct (String.eqb mat "") eqn:Hmat; run.
    + flatten_trace. reflexivity.
    + rewrite SetShaderMaterial_spec by (cbn; congruence). run.
      flatten_trace. reflexivity.
Qed.

(** Outside the live registries: without a shader manager the guarded
    submissions are skipped, and the draw is still issued as long as no
    material has to be submitted. *)
Lemma render_without_shader o m :
  m_pShaderManager (scene m) = NULL ->
  m_basicMeshes (scene m) <> NULL ->
  shaderMaterial o = "" \/ m_objectMaterials (scene m) = [] ->
  render (o, m)
  = Some (tt, (o, {| scene := scene m;
                     world := extend (world m) [Draw (body_of (shape o))]
                                (next_texture (world m)) |})).
Proof.
  destruct m as [[p bm ids n mats] [t nt ld d]].
  destruct o as [uv rot sc pos rgba [body] tex mat].
  cbn [scene m_pShaderManager m_basicMeshes m_objectMaterials shaderMaterial].
  intros -> Hbm Hmat. destruct bm as [|b]; [congruence|].
  unfold render, SetTransformations, SetShaderColor, SetTextureUVScale,
    SetShaderTexture, SetShaderMaterial.
  run.
  destruct (String.eqb tex ""); run;
    (destruct (String.eqb_spec mat "") as [_|Hne]; run; [reflexivity|]);
    (destruct Hmat as [->| ->]; [congruence|]); reflexivity.
Qed.

(** With a material to submit, SetShaderMaterial dereferences the null
    pointer: the call of [render] has no defined outcome. *)
Lemma render_null_dereference o m :
  m_pShaderManager (scene m) = NULL ->
  shaderMaterial o <> "" ->
  m_objectMaterials (scene m) <> [] ->
  render (o, m) = None.
Proof.
  destruct m as [[p bm ids n mats] [t nt ld d]].
  destruct o as [uv rot sc pos rgba [body] tex mat].
  cbn [scene m_pShaderManager m_objectMaterials shaderMaterial].
  intros -> Hmat Hne.
  assert (Hlookup : SetShaderMaterial mat
            {| scene := {| m_pShaderManager := NULL; m_basicMeshes := bm;
                           m_textureIDs := ids; m_loadedTextures := n;
                           m_objectMaterials := mats |};
               world := {| trace := t; next_texture := nt; stbi_load := ld;
                           default_OBJECT_MATERIAL := d |} |} = None).
  { unfold SetShaderMaterial. unfold bind at 1, this at 1, gets at 1.
    cbn [scene m_objectMaterials].
    assert (Hsize : size mats > 0)
      by (unfold size; destruct mats; [congruence|cbn; lia]).
    destruct (Z.gtb_spec (size mats) 0) as [_|]; [|lia].
    unfold when at 1. unfold bind at 1, gets at 1. unfold bind at 1.
    rewrite FindMaterial_spec. cbn [scene m_objectMaterials].
    destruct (Z.eqb_spec (size mats) 0) as [|_]; [lia|]. reflexivity. }
  unfold render, SetTransformations, SetShaderColor, SetTextureUVScale,
    SetShaderTexture.
  run.
  destruct (String.eqb tex ""); run;
    (destruct (String.eqb_spec mat "") as [|_]; [congruence|]);
    rewrite Hlookup; reflexivity.
Qed.

End Render.

(** ** The state of the builder *)

Section Builder.
Context {glm : GLM}.

Lemma keeps_self_bind {A B : Type} (c : M Heap A) (k : A -> M Heap B) :
  keeps_self c -> (forall a, keeps_self (k a)) -> keeps_self (bind c k).
Proof.
  intros Hc Hk o m b o' m'. unfold bind.
  destruct (c (o, m)) as [[a [o1 m1]]|] eqn:Hrun; [|discriminate].
  intros Hrun'. apply Hc in Hrun as ->. exact (Hk a _ _ _ _ _ Hrun').
Qed.

Lemma keeps_self_self {A : Type} (f : object -> A) : keeps_self (self f).
Proof. intros o m a o' m'. unfold self, gets. cbn. congruence. Qed.

Lemma keeps_self_ret {A : Type} (a : A) : keeps_self (ret a).
Proof. intros o m a' o' m'. unfold ret. congruence. Qed.

Lemma keeps_self_scenePtr {A : Type} (method : M Machine A) :
  keeps_self (scenePtr method).
Proof.
  intros o m a o' m'. unfold scenePtr. cbn.
  destruct (method m) as [[a1 m1]|]; congruence.
Qed.

Lemma keeps_self_when (b : bool) (c : M Heap unit) :
  keeps_self c -> keeps_self (when b c).
Proof. destruct b; [auto|]. intros _. apply keeps_self_ret. Qed.

Lemma keeps_self_call f : keeps_self (call f).
Proof. destruct f. apply keeps_self_scenePtr. Qed.

Lemma render_keeps_self : keeps_self render.
Proof.
  unfold render.
  repeat first
    [ apply keeps_self_bind; [|intros ?]
    | apply keeps_self_self
    | apply keeps_self_scenePtr
    | apply keeps_self_when
    | apply keeps_self_call ].
Qed.

(** One call leaves every member that it does not assign. *)
Lemma invoke_frame c o m u o' m' f :
  invoke c (o, m) = Some (u, (o', m')) ->
  sets c f = false ->
  read f o' = read f o.
Proof.
  destruct c; cbn [invoke].
  1-8: intros [= <- <-]; destruct f; try discriminate; reflexivity.
  - intros Hrun _. apply render_keeps_self in Hrun as ->. reflexivity.
  - intros [= <- <-]; destruct f; try discriminate; reflexivity.
Qed.

(** C4. Over every sequence of setters, [render] and [resetAll] calls that
    runs to its end, a member that no call of the sequence assigns keeps its
    value: a setter assigns its own member only, [resetAll] assigns every
    member but the function object, and [render] assigns nothing, so that a
    sequence of [render] calls hands the object back as it received it. *)
Theorem members_carry (cs : list method_call) : forall o m o' m',
  invoke_all cs (o, m) = Some (tt, (o', m')) ->
  (forall f, Forall (fun c => sets c f = false) cs -> read f o' = read f o)
  /\ (Forall (fun c => c = call_render) cs -> o' = o).
Proof.
  induction cs as [|c cs IH]; intros o m o' m' Hrun.
  - cbn in Hrun. injection Hrun as <- <-. auto.
  - cbn [invoke_all] in Hrun. unfold bind in Hrun.
    destruct (invoke c (o, m)) as [[u [o1 m1]]|] eqn:Hc; [|discriminate].
    destruct (IH _ _ _ _ Hrun) as [Hcarry Hrender]. split.
    + intros f Hf. apply Forall_cons in Hf as [Hc0 Hf].
      rewrite (Hcarry f Hf). exact (invoke_frame _ _ _ _ _ _ _ Hc Hc0).
    + intros Hall. apply Forall_cons in Hall as [-> Hall].
      rewrite (Hrender Hall). exact (render_keeps_self _ _ _ _ _ Hc).
Qed.

(** C5. Whatever the object holds, [resetAll] runs to its end and leaves
    uvScale at (0,0), the rotations at (0,0,0), the scale at (1,1,1), the
    position at (0,0,0), the colour at (0,0,0,1), both tags empty and the
    stored function object untouched: the default member values of
    object.h, but for the function object. *)
Theorem resetAll_defaults o m :
  exists o',
    resetAll (o, m) = Some (tt, (o', m))
    /\ uvScale o' = Vec2 (f32 0.0) (f32 0.0)
    /\ rotations o' = Vec3 (f32 0.0) (f32 0.0) (f32 0.0)
    /\ scale o' = Vec3 (f32 1.0) (f32 1.0) (f32 1.0)
    /\ position o' = Vec3 (f32 0.0) (f32 0.0) (f32 0.0)
    /\ RGBA o' = Vec4 (f32 0.0) (f32 0.0) (f32 0.0) (f32 1.0)
    /\ texture o' = ""
    /\ shaderMaterial o' = ""
    /\ shape o' = shape o
    /\ o' = with_shape (shape o) object_ctor.
Proof.
  eexists. split; [reflexivity|]. cbn. repeat split; reflexivity.
Qed.

End Builder.

(** The inner pencil cup of RenderScene is drawn without a call that
    assigns the rotations: they are still the (3,0,0) of the outer cup. *)
Lemma members_carry_witness :
  invoke_all (glm := glm_terms) inner_cup sample_outer_cup = Some (tt, sample_inner_cup)
  /\ Forall (fun c => sets c member_rotations = false) inner_cup
  /\ read member_rotations (fst sample_inner_cup)
     = of_vec3 (Vec3 (f32 3.0) (f32 0.0) (f32 0.0)).
Proof.
  assert (Hrun : invoke_all (glm := glm_terms) inner_cup sample_outer_cup
                 = Some (tt, sample_inner_cup)) by reflexivity.
  assert (Hsets : Forall (fun c => sets c member_rotations = false) inner_cup)
    by (repeat constructor).
  split; [exact Hrun|]. split; [exact Hsets|].
  rewrite (proj1 (members_carry (glm := glm_terms) inner_cup
                    (fst sample_outer_cup) (snd sample_outer_cup)
                    (fst sample_inner_cup) (snd sample_inner_cup) Hrun)
             member_rotations Hsets).
  reflexivity.
Defined.

(** ** What render submits *)

Section Submissions.
Context {glm : GLM}.

Lemma material_events_uniform tag v declared :
  forallb is_uniform (material_events tag v declared) = true
  /\ mat4_writes (material_events tag v declared) = []
  /\ int_writes g_UseTextureName (material_events tag v declared) = []
  /\ sampler_writes (material_events tag v declared) = []
  /\ vec2_writes (material_events tag v declared) = [].
Proof.
  unfold material_events. destruct (size v >? 0); repeat split; reflexivity.
Qed.

Lemma int_writes_app name evs evs' :
  int_writes name (evs ++ evs') = int_writes name evs ++ int_writes name evs'.
Proof. apply flat_map_app. Qed.

Lemma mat4_writes_app evs evs' :
  mat4_writes (evs ++ evs') = mat4_writes evs ++ mat4_writes evs'.
Proof. apply flat_map_app. Qed.

Lemma sampler_writes_app evs evs' :
  sampler_writes (evs ++ evs') = sampler_writes evs ++ sampler_writes evs'.
Proof. apply flat_map_app. Qed.

Lemma vec2_writes_app evs evs' :
  vec2_writes (evs ++ evs') = vec2_writes evs ++ vec2_writes evs'.
Proof. apply flat_map_app. Qed.

(** The material part of [render] writes no matrix, no [int], no sampler
    and no [vec2]. *)
Lemma material_part_uniform (o : object) v declared :
  let part := if String.eqb (shaderMaterial o) "" then []
              else material_events (shaderMaterial o) v declared in
  forallb is_uniform part = true
  /\ mat4_writes part = []
  /\ int_writes g_UseTextureName part = []
  /\ sampler_writes part = []
  /\ vec2_writes part = [].
Proof.
  cbv zeta. destruct (String.eqb (shaderMaterial o) "").
  - repeat split; reflexivity.
  - apply material_events_uniform.
Qed.

(** A registry that has just been constructed on a shader manager is live,
    and stays so over a series of loads that runs to its end. *)
Lemma live_loaded a w m0 files m :
  new_SceneManager (Addr a) w = Some (tt, m0) ->
  load_all files m0 = Some (tt, m) ->
  live (scene m).
Proof.
  intros Hnew Hload.
  destruct (new_SceneManager_table _ _ _ Hnew) as (Hok & _ & _ & Hp).
  destruct (load_all_registered _ _ _ Hok Hload) as (Hok' & _ & _ & Hp' & Hbm').
  rewrite new_SceneManager_eq in Hnew. injection Hnew as <-.
  unfold live. rewrite Hp', Hbm'. cbn. repeat split; try discriminate; apply Hok'.
Qed.

(** C3. On a live registry, a call of [render] on an object at position p,
    with rotations r (in degrees) and scale s, runs to its end and submits
    one matrix, under the name "model": the product
    translate(p) * rotate(radians(r.x), X) * rotate(radians(r.y), Y)
    * rotate(radians(r.z), Z) * scale(s), multiplied in that order. It is
    the first call that [render] issues. *)
Theorem render_model_matrix o m :
  live (scene m) ->
  exists m' rest,
    render (o, m) = Some (tt, (o, m'))
    /\ trace (world m')
       = trace (world m)
         ++ setMat4Value "model"
              (glm_translate (position o)
               * glm_rotate (glm_radians (v3x (rotations o)))
                   (Vec3 (f32 1.0) (f32 0.0) (f32 0.0))
               * glm_rotate (glm_radians (v3y (rotations o)))
                   (Vec3 (f32 0.0) (f32 1.0) (f32 0.0))
               * glm_rotate (glm_radians (v3z (rotations o)))
                   (Vec3 (f32 0.0) (f32 0.0) (f32 1.0))
               * glm_scale (scale o))%glm
            :: rest
    /\ mat4_writes rest = [].
Proof.
  intros Hlive. rewrite (render_live o m Hlive).
  eexists.
  exists (tail (render_uniforms o (scene m) (default_OBJECT_MATERIAL (world m)))
          ++ [Draw (body_of (shape o))]).
  split; [reflexivity|]. split; [reflexivity|].
  destruct (material_part_uniform o (m_objectMaterials (scene m))
              (default_OBJECT_MATERIAL (world m))) as (_ & Hmat & _).
  unfold render_uniforms. cbn [app tail].
  change (mat4_writes (?a :: ?b :: ?l)) with (mat4_writes l).
  rewrite !mat4_writes_app, Hmat.
  unfold texture_events. destruct (String.eqb (texture o) ""); reflexivity.
Qed.

(** C8. On a live registry a call of [render] runs to its end. With an
    empty texture tag the uniform "bUseTexture" is written once, with 0, by
    the colour submission, and neither a sampler nor a UV scale is
    submitted. With any other tag "bUseTexture" is written 0 and then 1, the
    result of FindTextureSlot for the tag (-1 when no slot in use carries
    it) is submitted as the sampler "objectTexture", and the UV scale of the
    object is submitted as "UVscale". *)
Theorem render_texture o m :
  live (scene m) ->
  exists m' evs,
    render (o, m) = Some (tt, (o, m'))
    /\ trace (world m') = trace (world m) ++ evs
    /\ (texture o = "" ->
        int_writes "bUseTexture" evs = [0]
        /\ sampler_writes evs = []
        /\ vec2_writes evs = [])
    /\ (texture o <> "" ->
        int_writes "bUseTexture" evs = [0; 1]
        /\ (exists slot,
              FindTextureSlot (texture o) m = Some (slot, m)
              /\ (texture o ∉ registered (scene m) -> slot = -1)
              /\ sampler_writes evs = [("objectTexture", slot)])
        /\ vec2_writes evs = [("UVscale", uvScale o)]).
Proof.
  intros Hlive. rewrite (render_live o m Hlive).
  eexists.
  exists (render_uniforms o (scene m) (default_OBJECT_MATERIAL (world m))
          ++ [Draw (body_of (shape o))]).
  split; [reflexivity|]. split; [reflexivity|].
  destruct (material_part_uniform o (m_objectMaterials (scene m))
              (default_OBJECT_MATERIAL (world m))) as (_ & _ & Hint & Hsam & Hvec).
  unfold render_uniforms. unfold g_UseTextureName in *.
  rewrite !int_writes_app, !sampler_writes_app, !vec2_writes_app.
  rewrite Hint, Hsam, Hvec.
  unfold texture_events.
  destruct (String.eqb_spec (texture o) "") as [Hempty|Hset]; split;
    try (intros; congruence); intros _.
  - repeat split; reflexivity.
  - split; [reflexivity|]. split.
    + exists (slot_of (texture o) (registered (scene m))).
      split; [apply FindTextureSlot_spec, Hlive|]. split.
      * intros Hnot. apply first_index_absent, Hnot.
      * reflexivity.
    + destruct (uvScale o). reflexivity.
Qed.

(** C10. On a live registry every call of [render] runs to its end and
    issues, after the last of its uniform submissions, one call of the
    draw method behind the stored function object and no other draw,
    whatever the texture tag and the material tag are and whether or not
    the tables hold them. *)
Theorem render_draws_once o m :
  live (scene m) ->
  exists m' uniforms,
    render (o, m) = Some (tt, (o, m'))
    /\ trace (world m') = trace (world m) ++ uniforms ++ [Draw (body_of (shape o))]
    /\ forallb is_uniform uniforms = true
    /\ List.filter is_draw (uniforms ++ [Draw (body_of (shape o))])
       = [Draw (body_of (shape o))].
Proof.
  intros Hlive. rewrite (render_live o m Hlive).
  eexists.
  exists (render_uniforms o (scene m) (default_OBJECT_MATERIAL (world m))).
  split; [reflexivity|]. split; [reflexivity|].
  assert (Huni : forallb is_uniform
                   (render_uniforms o (scene m) (default_OBJECT_MATERIAL (world m)))
                 = true).
  { destruct (material_part_uniform o (m_objectMaterials (scene m))
                (default_OBJECT_MATERIAL (world m))) as (Hmat & _).
    unfold render_uniforms. rewrite !forallb_app, Hmat.
    unfold texture_events. destruct (String.eqb (texture o) ""); reflexivity. }
  split; [exact Huni|].
  rewrite List.filter_app. cbn [List.filter is_draw].
  replace (List.filter is_draw
             (render_uniforms o (scene m) (default_OBJECT_MATERIAL (world m))))
    with (@nil Event); [reflexivity|].
  symmetry. revert Huni.
  generalize (render_uniforms o (scene m) (default_OBJECT_MATERIAL (world m))).
  intros l. induction l as [|e l IH]; cbn [forallb List.filter]; [reflexivity|].
  intros Hl. apply andb_prop in Hl as [He Hl].
  destruct e; try discriminate He; cbn [is_draw]; apply IH, Hl.
Qed.

End Submissions.

(** ** Loading and finding textures *)

Section Textures.
Context {glm : GLM}.

(** C7. When the decoder returns an image whose channel count is neither 3
    nor 4, CreateGLTexture returns false and leaves the texture table and
    the count of loaded textures as they were. When it returns an image of
    3 or 4 channels and fewer than sixteen slots are in use, CreateGLTexture
    returns true, the count goes up by one, the tag is appended to the slots
    in use and no other element of the table changes. *)
Theorem CreateGLTexture_channels filename tag m img :
  stbi_load (world m) filename = Some img ->
  (colorChannels img <> 3 -> colorChannels img <> 4 ->
   exists m',
     CreateGLTexture filename tag m = Some (false, m')
     /\ m_textureIDs (scene m') = m_textureIDs (scene m)
     /\ m_loadedTextures (scene m') = m_loadedTextures (scene m))
  /\ (colorChannels img = 3 \/ colorChannels img = 4 ->
      table_ok (scene m) -> m_loadedTextures (scene m) < 16 ->
      exists m',
        CreateGLTexture filename tag m = Some (true, m')
        /\ m_loadedTextures (scene m') = m_loadedTextures (scene m) + 1
        /\ registered (scene m') = registered (scene m) ++ [tag]
        /\ length (m_textureIDs (scene m')) = length (m_textureIDs (scene m))
        /\ (forall i : nat, i <> Z.to_nat (m_loadedTextures (scene m)) ->
            m_textureIDs (scene m') !! i = m_textureIDs (scene m) !! i)).
Proof.
  intros Himg. split.
  - intros H3 H4.
    destruct (CreateGLTexture_rejects filename tag m) as (evs & name & ->).
    { unfold loads, supported. rewrite Himg.
      destruct (Z.eqb_spec (colorChannels img) 3); [contradiction|].
      destruct (Z.eqb_spec (colorChannels img) 4); [contradiction|]. reflexivity. }
    eexists. split; [reflexivity|]. split; reflexivity.
  - intros Hch Hok Hlt.
    destruct (CreateGLTexture_accepts filename tag m Hok) as (evs & name & ->).
    { unfold loads, supported. rewrite Himg.
      destruct Hch as [-> | ->]; reflexivity. }
    destruct (Z.ltb_spec (m_loadedTextures (scene m)) 16); [|lia].
    eexists. split; [reflexivity|]. cbn [scene].
    destruct (registered_register tag (next_texture (world m)) (scene m) Hok Hlt)
      as [_ Hreg].
    split; [reflexivity|]. split; [exact Hreg|].
    unfold register. cbn. split; [apply length_insert|].
    intros i Hi. apply list_lookup_insert_ne. congruence.
Qed.

(** C6. After a registry has been constructed and a series of
    CreateGLTexture calls has run to its end, FindTextureSlot returns -1 for
    a tag that no successful call of the series carried. For a tag that a
    successful call carried it returns the position, among the successful
    calls, of the first one with that tag: an index from 0 to 15, and the
    same index after any further series of calls that runs to its end. *)
Theorem FindTextureSlot_stable pShaderManager w m0 files m tag :
  new_SceneManager pShaderManager w = Some (tt, m0) ->
  load_all files m0 = Some (tt, m) ->
  (tag ∉ loaded_tags w files -> FindTextureSlot tag m = Some (-1, m))
  /\ (tag ∈ loaded_tags w files ->
      exists i : nat,
        FindTextureSlot tag m = Some (Z.of_nat i, m)
        /\ 0 <= Z.of_nat i < 16
        /\ loaded_tags w files !! i = Some tag
        /\ (forall j : nat, (j < i)%nat -> loaded_tags w files !! j <> Some tag)
        /\ (forall more m', load_all more m = Some (tt, m') ->
            FindTextureSlot tag m' = Some (Z.of_nat i, m'))).
Proof.
  intros Hnew Hload.
  destruct (new_SceneManager_table _ _ _ Hnew) as (Hok0 & Hreg0 & Hw & _).
  destruct (load_all_registered _ _ _ Hok0 Hload) as (Hok & Hreg & Hld & _).
  rewrite Hreg0, Hw in Hreg. cbn [app] in Hreg.
  split.
  - intros Hnot. rewrite FindTextureSlot_spec by exact Hok.
    unfold slot_of. rewrite Hreg, first_index_absent by exact Hnot. reflexivity.
  - intros Hin.
    destruct (first_index_present tag (loaded_tags w files) 0 (-1) Hin)
      as (i & Hi & Hat & Hfirst).
    exists i. split; [|split; [|split; [exact Hat|split; [exact Hfirst|]]]].
    + rewrite FindTextureSlot_spec by exact Hok.
      unfold slot_of. rewrite Hreg, Hi. f_equal.
    + apply lookup_lt_Some in Hat. rewrite <- Hreg in Hat.
      unfold registered in Hat. rewrite length_fmap, length_take in Hat.
      destruct Hok as [Hlen Hn]. lia.
    + intros more m' Hmore.
      destruct (load_all_registered _ _ _ Hok Hmore) as (Hok' & Hreg' & _).
      rewrite FindTextureSlot_spec by exact Hok'.
      unfold slot_of. rewrite Hreg', Hreg, first_index_app, Hi by exact Hin.
      f_equal.
Qed.

End Textures.

(** On a fresh registry a single-channel image is turned down and the table
    stays empty; a three-channel image is registered in the first slot. *)
Lemma CreateGLTexture_channels_witness :
  (stbi_load sample_world "Textures/gray.png"
   = Some {| width := 16; height := 16; colorChannels := 1 |}
   /\ 1 <> 3 /\ 1 <> 4
   /\ exists m',
        CreateGLTexture (glm := glm_terms) "Textures/gray.png" "gray" sample_constructed
        = Some (false, m')
        /\ m_textureIDs (scene m') = m_textureIDs (scene sample_constructed)
        /\ m_loadedTextures (scene m') = 0)
  /\ (stbi_load sample_world "Textures/wood.jpg"
      = Some {| width := 640; height := 480; colorChannels := 3 |}
      /\ table_ok (scene sample_constructed)
      /\ m_loadedTextures (scene sample_constructed) < 16
      /\ exists m',
           CreateGLTexture (glm := glm_terms) "Textures/wood.jpg" "wood" sample_constructed
           = Some (true, m')
           /\ registered (scene m') = ["wood"]).
Proof.
  split.
  - assert (Himg : stbi_load (world sample_constructed) "Textures/gray.png"
                   = Some {| width := 16; height := 16; colorChannels := 1 |})
      by reflexivity.
    assert (H3 : 1 <> 3) by lia. assert (H4 : 1 <> 4) by lia.
    split; [exact Himg|]. split; [exact H3|]. split; [exact H4|].
    exact (proj1 (CreateGLTexture_channels (glm := glm_terms)
                    "Textures/gray.png" "gray" sample_constructed _ Himg) H3 H4).
  - assert (Himg : stbi_load (world sample_constructed) "Textures/wood.jpg"
                   = Some {| width := 640; height := 480; colorChannels := 3 |})
      by reflexivity.
    assert (Hok : table_ok (scene sample_constructed))
      by (split; [reflexivity | cbn; lia]).
    assert (Hlt : m_loadedTextures (scene sample_constructed) < 16) by (cbn; lia).
    split; [exact Himg|]. split; [exact Hok|]. split; [exact Hlt|].
    destruct (proj2 (CreateGLTexture_channels (glm := glm_terms)
                       "Textures/wood.jpg" "wood" sample_constructed _ Himg)
                (or_introl eq_refl) Hok Hlt) as (m' & Hrun & _ & Hreg & _).
    exists m'. split; [exact Hrun|exact Hreg].
Defined.

(** After the fourteen loads of LoadSceneTextures "wood" is found in slot 6,
    and still there after one more texture has been loaded. *)
Lemma FindTextureSlot_stable_witness :
  new_SceneManager (glm := glm_terms) (Addr 2) sample_world = Some (tt, sample_constructed)
  /\ load_all scene_textures sample_constructed = Some (tt, sample_loaded)
  /\ "wood" ∈ loaded_tags sample_world scene_textures
  /\ FindTextureSlot "wood" sample_loaded = Some (6, sample_loaded)
  /\ forall m', load_all [("Textures/clouds.png", "sky")] sample_loaded = Some (tt, m') ->
                FindTextureSlot "wood" m' = Some (6, m').
Proof.
  assert (Hnew : new_SceneManager (glm := glm_terms) (Addr 2) sample_world
                 = Some (tt, sample_constructed)) by reflexivity.
  assert (Hload : load_all scene_textures sample_constructed = Some (tt, sample_loaded))
    by reflexivity.
  assert (Hin : "wood" ∈ loaded_tags sample_world scene_textures)
    by (vm_compute; do 6 apply list_elem_of_further; apply list_elem_of_here).
  split; [exact Hnew|]. split; [exact Hload|]. split; [exact Hin|].
  destruct (proj2 (FindTextureSlot_stable (glm := glm_terms) _ _ _ _ _ "wood" Hnew Hload) Hin)
    as (i & Hfind & _ & _ & _ & Hstable).
  assert (Hi : Z.of_nat i = 6).
  { assert (Hrun : FindTextureSlot "wood" sample_loaded = Some (6, sample_loaded))
      by reflexivity.
    rewrite Hrun in Hfind. congruence. }
  rewrite Hi in Hfind, Hstable. split; [exact Hfind|].
  intros m' Hmore. exact (Hstable _ _ Hmore).
Defined.

(** ** Drawing the outer pencil cup *)

Lemma sample_prepared_live : live (scene sample_prepared).
Proof.
  split; [discriminate|]. split; [discriminate|].
  split; [reflexivity | cbn; lia].
Qed.

(** The first object of RenderScene: the matrix of the cup at (13,1,-3),
    turned three degrees about X and scaled by (2,4,2). *)
Lemma render_model_matrix_witness :
  live (scene sample_prepared)
  /\ exists m' rest,
       render (glm := glm_terms) (fst sample_outer_cup, sample_prepared)
       = Some (tt, (fst sample_outer_cup, m'))
       /\ trace (world m')
          = trace (world sample_prepared)
            ++ setMat4Value (glm := glm_terms) "model"
                 (term_mul
                    (term_mul
                       (term_mul
                          (term_mul
                             (term_translate (Vec3 (f32 13.0) (f32 1.0) (f32 (-3.0))))
                             (term_rotate (degrees_to_radians (f32 3.0))
                                (Vec3 (f32 1.0) (f32 0.0) (f32 0.0))))
                          (term_rotate (degrees_to_radians (f32 0.0))
                             (Vec3 (f32 0.0) (f32 1.0) (f32 0.0))))
                       (term_rotate (degrees_to_radians (f32 0.0))
                          (Vec3 (f32 0.0) (f32 0.0) (f32 1.0))))
                    (term_scale (Vec3 (f32 2.0) (f32 4.0) (f32 2.0))))
               :: rest
       /\ mat4_writes rest = [].
Proof.
  split; [exact sample_prepared_live|].
  exact (render_model_matrix (glm := glm_terms) (fst sample_outer_cup) sample_prepared
           sample_prepared_live).
Defined.

(** The outer cup carries the tag "dark_ceramic", loaded first: sampler 0. *)
Lemma render_texture_witness :
  live (scene sample_prepared)
  /\ texture (fst sample_outer_cup) <> ""
  /\ exists m' evs,
       render (glm := glm_terms) (fst sample_outer_cup, sample_prepared)
       = Some (tt, (fst sample_outer_cup, m'))
       /\ trace (world m') = trace (world sample_prepared) ++ evs
       /\ int_writes "bUseTexture" evs = [0; 1]
       /\ sampler_writes evs = [("objectTexture", 0)]
       /\ vec2_writes evs = [("UVscale", Vec2 (f32 1.0) (f32 1.0))].
Proof.
  assert (Htex : texture (fst sample_outer_cup) <> "") by discriminate.
  split; [exact sample_prepared_live|]. split; [exact Htex|].
  destruct (render_texture (glm := glm_terms) (fst sample_outer_cup) sample_prepared
              sample_prepared_live) as (m' & evs & Hrun & Htrace & _ & Hset).
  destruct (Hset Htex) as (Hint & (slot & Hfind & _ & Hsam) & Hvec).
  assert (Hslot : FindTextureSlot (glm := glm_terms) "dark_ceramic" sample_prepared
                  = Some (0, sample_prepared)) by reflexivity.
  change (texture (fst sample_outer_cup)) with "dark_ceramic" in Hfind.
  rewrite Hslot in Hfind. injection Hfind as <-.
  exists m', evs. repeat split; assumption.
Defined.

Lemma render_draws_once_witness :
  live (scene sample_prepared)
  /\ exists m' uniforms,
       render (glm := glm_terms) (fst sample_outer_cup, sample_prepared)
       = Some (tt, (fst sample_outer_cup, m'))
       /\ trace (world m')
          = trace (world sample_prepared) ++ uniforms ++ [Draw DrawCylinderMesh]
       /\ forallb is_uniform uniforms = true
       /\ List.filter is_draw (uniforms ++ [Draw DrawCylinderMesh])
          = [Draw DrawCylinderMesh].
Proof.
  split; [exact sample_prepared_live|].
  exact (render_draws_once (glm := glm_terms) (fst sample_outer_cup) sample_prepared
           sample_prepared_live).
Defined.

(** ** Looking up materials *)

Section MaterialLookup.
Context {glm : GLM}.

Lemma first_material_absent tag v :
  (forall r, r ∈ v -> mat_tag r <> tag) -> first_material tag v = None.
Proof.
  induction v as [|r v IH]; intros Hnot; cbn; [reflexivity|].
  destruct (String.eqb_spec (mat_tag r) tag) as [Heq|_].
  - exfalso. exact (Hnot r (list_elem_of_here r v) Heq).
  - apply IH. intros r' Hr'. apply Hnot. apply list_elem_of_further, Hr'.
Qed.

(** C1 (the behaviour of the code). On a registry with a shader manager and
    a non-empty material vector in which no record carries the tag,
    FindMaterial answers true and hands the material back as it received it,
    and SetShaderMaterial submits the five fields of its local variable,
    which no assignment has reached. *)
Theorem FindMaterial_unknown_tag tag m :
  m_pShaderManager (scene m) <> NULL ->
  m_objectMaterials (scene m) <> [] ->
  (forall r, r ∈ m_objectMaterials (scene m) -> mat_tag r <> tag) ->
  (forall material, FindMaterial tag material m = Some ((true, material), m))
  /\ exists m',
       SetShaderMaterial tag m = Some (tt, m')
       /\ trace (world m')
          = trace (world m) ++ material_fields (default_OBJECT_MATERIAL (world m))
       /\ List.filter is_material_field
            (material_fields (default_OBJECT_MATERIAL (world m)))
          = material_fields (default_OBJECT_MATERIAL (world m)).
Proof.
  intros Hp Hne Hnot.
  assert (Hsize : size (m_objectMaterials (scene m)) > 0).
  { unfold size. destruct (m_objectMaterials (scene m)); [congruence|]. cbn. lia. }
  split.
  - intros material. rewrite FindMaterial_spec. unfold material_after.
    rewrite (first_material_absent _ _ Hnot).
    destruct (Z.eqb_spec (size (m_objectMaterials (scene m))) 0); [lia|]. reflexivity.
  - rewrite (SetShaderMaterial_spec tag m Hp).
    eexists. split; [reflexivity|]. cbn [world trace extend].
    unfold material_events, material_after.
    rewrite (first_material_absent _ _ Hnot).
    destruct (Z.gtb_spec (size (m_objectMaterials (scene m))) 0); [|lia].
    split; reflexivity.
Qed.

(** C2 (amended). Whatever the registry holds, DefineObjectMaterials runs to
    its end and appends seven records to the material vector. None of them
    is tagged "screen"; one is tagged "glass", and it holds the values that
    were assigned to [glassMaterial] before it was pushed: ambientColor
    (0.4,0.4,0.4), ambientStrength 0.3, diffuseColor (0.3,0.3,0.3),
    specularColor (0.6,0.6,0.6), shininess 85.0. *)
Theorem DefineObjectMaterials_glass m :
  exists defined,
    DefineObjectMaterials m
    = Some (tt, set_scene
                  (set_m_objectMaterials (m_objectMaterials (scene m) ++ defined)
                     (scene m)) m)
    /\ length defined = 7%nat
    /\ no_screen defined
    /\ (exists r, r ∈ defined /\ mat_tag r = "glass")
    /\ (forall r, r ∈ defined -> mat_tag r = "glass" -> glass_values r).
Proof.
  destruct m as [[p bm ids n mats] [t nt ld d]].
  unfold DefineObjectMaterials. run. rewrite <- ?app_assoc. cbn [app].
  eexists. split; [reflexivity|]. split; [reflexivity|].
  split; [|split].
  - intros r Hr. repeat (apply elem_of_cons in Hr as [->|Hr]; [discriminate|]).
    inversion Hr.
  - eexists. split; [do 2 apply list_elem_of_further; apply list_elem_of_here|].
    reflexivity.
  - intros r Hr.
    repeat (apply elem_of_cons in Hr as [->|Hr];
            [first [ discriminate 1
                   | intros _; unfold glass_values; cbn; vm_compute;
                     repeat split; reflexivity ] |]).
    inversion Hr.
Qed.

End MaterialLookup.

(** The prepared registry holds seven materials and none tagged "screen":
    the lookup of "screen" answers true and five fields of the untouched
    local variable reach the shader. *)
Lemma FindMaterial_unknown_tag_witness :
  m_pShaderManager (scene sample_prepared) <> NULL
  /\ m_objectMaterials (scene sample_prepared) <> []
  /\ (forall r, r ∈ m_objectMaterials (scene sample_prepared) -> mat_tag r <> "screen")
  /\ FindMaterial (glm := glm_terms) "screen"
       (default_OBJECT_MATERIAL sample_world) sample_prepared
     = Some ((true, default_OBJECT_MATERIAL sample_world), sample_prepared)
  /\ exists m',
       SetShaderMaterial (glm := glm_terms) "screen" sample_prepared = Some (tt, m')
       /\ trace (world m')
          = trace (world sample_prepared)
            ++ [ setVec3Value "material.ambientColor" (Vec3 (f32 0.0) (f32 0.0) (f32 0.0));
                 setFloatValue "material.ambientStrength" (f32 0.0);
                 setVec3Value "material.diffuseColor" (Vec3 (f32 0.0) (f32 0.0) (f32 0.0));
                 setVec3Value "material.specularColor" (Vec3 (f32 0.0) (f32 0.0) (f32 0.0));
                 setFloatValue "material.shininess" (f32 0.0) ].
Proof.
  assert (Hp : m_pShaderManager (scene sample_prepared) <> NULL) by discriminate.
  assert (Hne : m_objectMaterials (scene sample_prepared) <> []) by discriminate.
  assert (Hnot : forall r, r ∈ m_objectMaterials (scene sample_prepared) ->
                           mat_tag r <> "screen").
  { intros r Hr. cbn in Hr.
    repeat (apply elem_of_cons in Hr as [->|Hr]; [discriminate|]). inversion Hr. }
  split; [exact Hp|]. split; [exact Hne|]. split; [exact Hnot|].
  destruct (FindMaterial_unknown_tag (glm := glm_terms) "screen" sample_prepared
              Hp Hne Hnot) as (Hfind & m' & Hrun & Htrace & _).
  split; [apply Hfind|].
  exists m'. split; [exact Hrun|]. rewrite Htrace. reflexivity.
Defined.

(** On a fresh registry the vector is the seven records themselves, and the
    one tagged "glass" holds the glass values. *)
Lemma DefineObjectMaterials_glass_witness :
  DefineObjectMaterials (glm := glm_terms) sample_constructed = Some (tt, sample_defined)
  /\ length (m_objectMaterials (scene sample_defined)) = 7%nat
  /\ no_screen (m_objectMaterials (scene sample_defined))
  /\ exists r, r ∈ m_objectMaterials (scene sample_defined)
               /\ mat_tag r = "glass" /\ glass_values r.
Proof.
  assert (Hrun : DefineObjectMaterials (glm := glm_terms) sample_constructed
                 = Some (tt, sample_defined)) by reflexivity.
  split; [exact Hrun|].
  destruct (DefineObjectMaterials_glass (glm := glm_terms) sample_constructed)
    as (defined & Hdef & Hlen & Hscreen & (r & Hin & Htag) & Hglass).
  rewrite Hrun in Hdef.
  assert (Htable : m_objectMaterials (scene sample_defined) = defined).
  { exact (f_equal (fun r : option (unit * Machine) =>
                      match r with
                      | Some (_, m) => m_objectMaterials (scene m)
                      | None => []
                      end) Hdef). }
  rewrite Htable. split; [exact Hlen|]. split; [exact Hscreen|].
  exists r. split; [exact Hin|]. split; [exact Htag|]. exact (Hglass r Hin Htag).
Defined.

(** Counterexample to the statement C2 as written: on a fresh registry,
    after DefineObjectMaterials, the record tagged "glass" does not hold the
    screen values. *)
Lemma DefineObjectMaterials_glass_not_overwritten :
  DefineObjectMaterials (glm := glm_terms) sample_constructed = Some (tt, sample_defined)
  /\ ~ (no_screen (m_objectMaterials (scene sample_defined))
        /\ glass_overwritten (m_objectMaterials (scene sample_defined))).
Proof.
  split; [reflexivity|].
  intros (_ & _ & Hall).
  assert (Hin : {| ambientStrength := f32 0.3;
                   ambientColor := Vec3 (f32 0.4) (f32 0.4) (f32 0.4);
                   diffuseColor := Vec3 (f32 0.3) (f32 0.3) (f32 0.3);
                   specularColor := Vec3 (f32 0.6) (f32 0.6) (f32 0.6);
                   shininess := f32 85.0;
                   mat_tag := "glass" |} ∈ m_objectMaterials (scene sample_defined)).
  { do 2 apply list_elem_of_further. apply list_elem_of_here. }
  destruct (Hall _ Hin eq_refl) as (Hambient & _).
  vm_compute in Hambient. discriminate Hambient.
Qed.

(** ** Teardown *)

Section Teardown.
Context {glm : GLM}.

Lemma DestroyGLTextures_step i p bm ids n mats t nt ld d t0 :
  element ids i = Some t0 ->
  (_ <- textureIDs_at i ;;
   name <- gen_texture ;;
   textureIDs_update i (set_ID name))%method
    {| scene := {| m_pShaderManager := p; m_basicMeshes := bm; m_textureIDs := ids;
                   m_loadedTextures := n; m_objectMaterials := mats |};
       world := {| trace := t; next_texture := nt; stbi_load := ld;
                   default_OBJECT_MATERIAL := d |} |}
  = Some (tt,
          {| scene := {| m_pShaderManager := p; m_basicMeshes := bm;
                         m_textureIDs := <[Z.to_nat i := set_ID nt t0]> ids;
                         m_loadedTextures := n; m_objectMaterials := mats |};
             world := {| trace := t ++ [glGenTextures 1 nt];
                         next_texture := nt + 1; stbi_load := ld;
                         default_OBJECT_MATERIAL := d |} |}).
Proof.
  intros Hel. run. rewrite Hel. run. rewrite Hel. run. reflexivity.
Qed.

Lemma DestroyGLTextures_loop (k : nat) : forall i p bm ids n mats t nt ld d,
  0 <= i -> i + Z.of_nat k <= Z.of_nat (length ids) ->
  exists ids',
    for_count k i
      (fun i => _ <- textureIDs_at i ;;
                name <- gen_texture ;;
                textureIDs_update i (set_ID name))%method
      {| scene := {| m_pShaderManager := p; m_basicMeshes := bm; m_textureIDs := ids;
                     m_loadedTextures := n; m_objectMaterials := mats |};
         world := {| trace := t; next_texture := nt; stbi_load := ld;
                     default_OBJECT_MATERIAL := d |} |}
    = Some (tt,
            {| scene := {| m_pShaderManager := p; m_basicMeshes := bm;
                           m_textureIDs := ids';
                           m_loadedTextures := n; m_objectMaterials := mats |};
               world := {| trace := t ++ regenerated k nt;
                           next_texture := nt + Z.of_nat k; stbi_load := ld;
                           default_OBJECT_MATERIAL := d |} |})
    /\ length ids' = length ids.
Proof.
  induction k as [|k IH]; intros i p bm ids n mats t nt ld d Hi Hk.
  - exists ids. cbn. rewrite app_nil_r, Z.add_0_r. split; reflexivity.
  - assert (Hel : exists t0, element ids i = Some t0).
    { unfold element. destruct (Z.leb_spec 0 i); [|lia].
      apply lookup_lt_is_Some_2. lia. }
    destruct Hel as [t0 Hel].
    cbn [for_count]. unfold bind at 1.
    rewrite (DestroyGLTextures_step _ _ _ _ _ _ _ _ _ _ _ Hel).
    destruct (IH (i + 1) p bm (<[Z.to_nat i := set_ID nt t0]> ids) n mats
                (t ++ [glGenTextures 1 nt]) (nt + 1) ld d) as (ids' & Hrun & Hlen).
    { lia. } { rewrite length_insert. lia. }
    exists ids'. rewrite Hrun. rewrite length_insert in Hlen.
    split; [|exact Hlen]. cbn [regenerated]. rewrite <- app_assoc. cbn [app].
    replace (nt + 1 + Z.of_nat k) with (nt + Z.of_nat (S k)) by lia. reflexivity.
Qed.

Lemma regenerated_deletes_nothing k : forall name, deleted (regenerated k name) = [].
Proof. induction k as [|k IH]; intros name; cbn; [reflexivity|apply IH]. Qed.

(** C9 (the behaviour of the code). The destructor of a registry with a
    well-formed table runs to its end; after releasing the meshes it calls
    glGenTextures once for every loaded texture, overwriting the stored
    name, and passes no texture name to glDeleteTextures. *)
Theorem SceneManager_dtor_deletes_nothing m :
  table_ok (scene m) ->
  exists m',
    SceneManager_dtor m = Some (tt, m')
    /\ trace (world m')
       = trace (world m)
         ++ delete_ShapeMeshes
            :: regenerated (Z.to_nat (m_loadedTextures (scene m))) (next_texture (world m))
    /\ deleted (delete_ShapeMeshes
                :: regenerated (Z.to_nat (m_loadedTextures (scene m)))
                     (next_texture (world m))) = [].
Proof.
  destruct m as [[p bm ids n mats] [t nt ld d]]. intros [Hlen Hn]. cbn in Hlen, Hn.
  destruct (DestroyGLTextures_loop (Z.to_nat n) 0 NULL NULL ids n mats
              (t ++ [delete_ShapeMeshes]) nt ld d) as (ids' & Hrun & _); [lia|lia|].
  unfold SceneManager_dtor, DestroyGLTextures, for_range.
  unfold bind at 1 2 3 4. unfold assign, emit, modify, this, gets.
  unfold set_scene, set_world, set_trace, set_m_pShaderManager, set_m_basicMeshes.
  cbn [scene world trace m_loadedTextures m_pShaderManager m_basicMeshes
       m_textureIDs m_objectMaterials next_texture stbi_load default_OBJECT_MATERIAL].
  rewrite Z.sub_0_r, Hrun.
  eexists. split; [reflexivity|]. cbn [world trace].
  split; [rewrite <- app_assoc; reflexivity|].
  cbn. apply regenerated_deletes_nothing.
Qed.
End Teardown.

(** The prepared registry owns the texture names 1 to 14; its destructor
    generates the names 15 to 28 and deletes none. *)
Lemma SceneManager_dtor_deletes_nothing_witness :
  table_ok (scene sample_prepared)
  /\ ID <$> take 14 (m_textureIDs (scene sample_prepared))
     = [1; 2; 3; 4; 5; 6; 7; 8; 9; 10; 11; 12; 13; 14]
  /\ SceneManager_dtor (glm := glm_terms) sample_prepared = Some (tt, sample_destroyed)
  /\ trace (world sample_destroyed)
     = trace (world sample_prepared)
       ++ delete_ShapeMeshes :: regenerated (glm := glm_terms) 14 15
  /\ deleted (delete_ShapeMeshes :: regenerated (glm := glm_terms) 14 15) = [].
Proof.
  assert (Hok : table_ok (scene sample_prepared)) by (split; [reflexivity | cbn; lia]).
  split; [exact Hok|]. split; [reflexivity|].
  destruct (SceneManager_dtor_deletes_nothing (glm := glm_terms) sample_prepared Hok)
    as (m' & Hrun & Htrace & Hdel).
  assert (Hm : SceneManager_dtor (glm := glm_terms) sample_prepared
               = Some (tt, sample_destroyed)) by reflexivity.
  rewrite Hm in Hrun. injection Hrun as <-.
  split; [reflexivity|]. split; [exact Htrace|exact Hdel].
Defined.
